(** * pulsar-vite-plugin: the transform cache and its invalidation

    A shallow embedding of the three observed variants of [pulsarPlugin]
    (a Vite plugin handing [.tsx] files to an external transformer) and of
    the caching policy they implement:

    - [Shared]  : [src/index.ts], the variant with [buildStart] and
                  [transformedFiles] (one program shared by all files);
    - [Cached]  : [src/index.ts], the variant driven by [enableCache]
                  ([shouldCache], program cache cleared on hot update);
    - [Temp]    : [vite-plugin-temp/src/index.ts], module-level caches and
                  no hooks besides [transform].

    The external collaborators (dynamic import of the transformer module,
    the TypeScript compiler API, the console, Vite's module graph) are
    modelled by an event log and by one opaque function [emit] that stands
    for "create the source file, run the transformer factory over it, print
    the result". *)

From Stdlib Require Import String Ascii List Bool Arith Lia.
From stdpp Require Import base option gmap strings sets list.

Local Open Scope string_scope.

(** ** JavaScript string helpers used by the plugin *)

Module Js.

(** [s.endsWith(suffix)].  Identities are modelled as byte strings; the
    only suffix the plugin tests is ASCII, for which a test on bytes and
    a test on UTF-16 code units agree. *)
Definition endsWith (s suffix : string) : bool :=
  let n := String.length s in
  let m := String.length suffix in
  (m <=? n)%nat && String.eqb (String.substring (n - m) m s) suffix.

(** [s.split('/').pop()], by one pass that restarts the segment at every
    separator. *)
Fixpoint split_pop_from (cur s : string) : string :=
  match s with
  | EmptyString => cur
  | String c rest =>
      if Ascii.eqb c "/"%char then split_pop_from EmptyString rest
      else split_pop_from (cur ++ String c EmptyString) rest
  end.

Definition split_pop (s : string) : string := split_pop_from EmptyString s.

End Js.

(** The eligible-file predicate: [id.endsWith('.tsx')]. *)
Definition isTsx (id : string) : bool := Js.endsWith id ".tsx".

(** ** The world outside the plugin *)

(** [transformerModule.default].  A dynamic [import()] of one specifier
    resolves to the same module namespace every time, so there is a single
    transformer value; what the model counts is how often [import()] is
    called. *)
Inductive TransformerHandle : Type := TransformerDefault.

(** A [ts.Program].  [ph_roots] is the [rootNames] argument it was created
    from; [ph_stamp] is its allocation number, which orders program objects
    by creation time and tells two objects with the same roots apart. *)
Record ProgramHandle : Type := mkProgram {
  ph_stamp : nat;
  ph_roots : list string
}.

(** Freshness tag printed by the development log line. *)
Inductive status : Type := fresh | cached.

(** Vite's [ModuleNode], as far as [handleHotUpdate] looks at it. *)
Record ModuleNode : Type := mkModuleNode {
  mn_url : string;
  mn_file : option string
}.

(** Effects on collaborators, in the order the plugin performs them. *)
Inductive event : Type :=
| EvImport
    (* import('@pulsar-framework/transformer') was called *)
| EvCreateProgram (p : ProgramHandle)
    (* ts.createCompilerHost + ts.createProgram(roots, compilerOptions, host) *)
| EvTransform (t : TransformerHandle) (p : option ProgramHandle) (id code : string)
    (* transformer(program), ts.transform on the source file, printFile *)
| EvLog (fileName : string) (st : option status)
    (* console.log of the timing line, with its status tag if it has one *)
| EvInvalidateModule (m : ModuleNode).
    (* ctx.server.moduleGraph.invalidateModule(module) *)

(** What [transform] resolves to: [null], [{ code, map: null }], or a
    rejection because the code called a [null] transformer. *)
Inductive outcome : Type :=
| Null
| Output (code : string)
| Rejected.

(** [config.command] of the resolved Vite configuration. *)
Inductive command : Type := serve | build.

Definition command_eqb (a b : command) : bool :=
  match a, b with
  | serve, serve | build, build => true
  | _, _ => false
  end.

(** The plugin's own variables [V] together with the collaborators' side:
    the next free program stamp and the event log (newest event first). *)
Record session (V : Type) : Type := mkSession {
  vars : V;
  next_stamp : nat;
  events : list event
}.
Arguments mkSession {V} _ _ _.
Arguments vars {V} _.
Arguments next_stamp {V} _.
Arguments events {V} _.

(** ** A small state monad over sessions *)

Definition M (V A : Type) : Type := session V -> A * session V.

Definition ret {V A} (a : A) : M V A := fun s => (a, s).

Definition bind {V A B} (c : M V A) (k : A -> M V B) : M V B :=
  fun s => let (a, s') := c s in k a s'.

Notation "'do' x <- c ; k" := (bind c (fun x => k))
  (at level 10, x name, c at level 100, k at level 200).
Notation "c ;; k" := (bind c (fun _ => k))
  (at level 100, k at level 200, right associativity).

Definition read {V} : M V V := fun s => (vars s, s).

Definition assign {V} (v : V) : M V unit :=
  fun s => (tt, mkSession v (next_stamp s) (events s)).

Definition tell {V} (e : event) : M V unit :=
  fun s => (tt, mkSession (vars s) (next_stamp s) (e :: events s)).

(** Final state and result of a computation. *)
Definition exec {V A} (c : M V A) (s : session V) : session V := snd (c s).
Definition eval {V A} (c : M V A) (s : session V) : A := fst (c s).

(** The events a computation performs from [s], newest first: run it on an
    empty log.  No plugin code reads the log, so this is exactly what the
    run adds. *)
Definition clear_log {V} (s : session V) : session V :=
  mkSession (vars s) (next_stamp s) [].
Definition effects {V A} (c : M V A) (s : session V) : list event :=
  events (exec c (clear_log s)).

(** *** Collaborator calls *)

Section Collaborators.

(** The text printed for a source file [(id, code)] transformed by
    transformer [t] built over a program with the given roots ([None]
    when the program passed is [null]). *)
Variable emit : TransformerHandle -> option (list string) -> string -> string -> string.

Context {V : Type}.

(** [import('@pulsar-framework/transformer')]: the call itself. *)
Definition import_call : M V unit := tell EvImport.

(** [ts.createProgram(roots, compilerOptions, host)]: a new object. *)
Definition createProgram (roots : list string) : M V ProgramHandle :=
  fun s =>
    let p := mkProgram (next_stamp s) roots in
    (p, mkSession (vars s) (S (next_stamp s)) (EvCreateProgram p :: events s)).

(** [ts.createSourceFile(id, code, ...)], [transformer(program)],
    [ts.transform], [printer.printFile], [result.dispose()]. *)
Definition transform_and_print (t : TransformerHandle) (p : option ProgramHandle)
    (id code : string) : M V string :=
  tell (EvTransform t p id code) ;;
  ret (emit t (ph_roots <$> p) id code).

Definition console_log (fileName : string) (st : option status) : M V unit :=
  tell (EvLog fileName st).

End Collaborators.

(** *** Reading an event log *)

Definition is_import (e : event) : bool :=
  match e with EvImport => true | _ => false end.

(** Number of [import()] calls in a log. *)
Definition imports (l : list event) : nat := List.length (List.filter is_import l).

(** The program handed to the transform step, for the newest transform in
    the log. *)
Fixpoint program_passed (l : list event) : option (option ProgramHandle) :=
  match l with
  | [] => None
  | EvTransform _ p _ _ :: _ => Some p
  | _ :: l' => program_passed l'
  end.

(** The transformer handed to the transform step. *)
Fixpoint transformer_passed (l : list event) : option TransformerHandle :=
  match l with
  | [] => None
  | EvTransform t _ _ _ :: _ => Some t
  | _ :: l' => transformer_passed l'
  end.

(** The status tag of the newest log line, if a line with a tag was
    printed. *)
Fixpoint reported (l : list event) : option status :=
  match l with
  | [] => None
  | EvLog _ st :: _ => st
  | _ :: l' => reported l'
  end.

(** An [async] function runs synchronously up to its first [await]; there
    it either has settled already or is parked with the locals [K] its
    continuation needs. *)
Inductive progress (K : Type) : Type :=
| Settled (o : outcome)
| AwaitingImport (k : K).
Arguments Settled {K} _.
Arguments AwaitingImport {K} _.

(** ** Variant [Shared]: one program built at [buildStart] *)

Module Shared.

(** The closure variables of [pulsarPlugin]. *)
Record plugin : Type := mkPlugin {
  cachedTransformer : option TransformerHandle;
  cachedProgram : option ProgramHandle;
  transformedFiles : gset string;
  isDevMode : bool
}.

Definition set_cachedTransformer (t : option TransformerHandle) (v : plugin) : plugin :=
  mkPlugin t (cachedProgram v) (transformedFiles v) (isDevMode v).
Definition set_cachedProgram (p : option ProgramHandle) (v : plugin) : plugin :=
  mkPlugin (cachedTransformer v) p (transformedFiles v) (isDevMode v).
Definition set_transformedFiles (f : gset string) (v : plugin) : plugin :=
  mkPlugin (cachedTransformer v) (cachedProgram v) f (isDevMode v).
Definition set_isDevMode (b : bool) (v : plugin) : plugin :=
  mkPlugin (cachedTransformer v) (cachedProgram v) (transformedFiles v) b.

(** [pulsarPlugin(options)]: the variables as initialised. *)
Definition init : plugin := mkPlugin None None ∅ true.

Definition start : session plugin := mkSession init 0 [].

Section Hooks.

Variable emit : TransformerHandle -> option (list string) -> string -> string -> string.

(** [configResolved(config)]. *)
Definition configResolved (cmd : command) : M plugin unit :=
  do v <- read;
  assign (set_isDevMode (command_eqb cmd serve) v).

(** [buildStart()]. *)
Definition buildStart : M plugin unit :=
  do v <- read;
  match cachedProgram v with
  | Some _ => ret tt
  | None =>
      do p <- createProgram [];
      do v <- read;
      assign (set_cachedProgram (Some p) v)
  end.

(** [transform], from [ts.createSourceFile] to the [return]: the part
    that runs without suspension. *)
Definition transform_rest (code id : string) : M plugin outcome :=
  let fileName := Js.split_pop id in
  do v <- read;
  let program := cachedProgram v in
  match cachedTransformer v with
  | None => ret Rejected
  | Some t =>
      do outputCode <- transform_and_print emit t program id code;
      do v <- read;
      (if isDevMode v then
         let st := if bool_decide (id ∈ transformedFiles v) then cached else fresh in
         assign (set_transformedFiles ({[id]} ∪ transformedFiles v) v) ;;
         console_log fileName (Some st)
       else ret tt) ;;
      ret (Output outputCode)
  end.

(** [transform] up to its [await]. *)
Definition transform_begin (code id : string) : M plugin (progress (string * string)) :=
  if negb (isTsx id) then ret (Settled Null)
  else
    do v <- read;
    match cachedTransformer v with
    | None =>
        import_call ;;
        ret (AwaitingImport (code, id))
    | Some _ =>
        do o <- transform_rest code id;
        ret (Settled o)
    end.

(** [transform] from the point where the awaited import has resolved. *)
Definition transform_resume (k : string * string) : M plugin outcome :=
  let '(code, id) := k in
  do v <- read;
  assign (set_cachedTransformer (Some TransformerDefault) v) ;;
  transform_rest code id.

(** One [transform] call running with no other call interleaved. *)
Definition transform (code id : string) : M plugin outcome :=
  do r <- transform_begin code id;
  match r with
  | Settled o => ret o
  | AwaitingImport k => transform_resume k
  end.

(** [handleHotUpdate(ctx)], with the fields of [ctx] it reads.  The
    result is [ctx.modules], or [undefined] ([None]). *)
Definition handleHotUpdate (file : string) (modules : list ModuleNode)
    : M plugin (option (list ModuleNode)) :=
  if isTsx file then
    do v <- read;
    assign (set_transformedFiles (transformedFiles v ∖ {[file]}) v) ;;
    match List.find (fun m => bool_decide (mn_file m = Some file)) modules with
    | Some m => tell (EvInvalidateModule m)
    | None => ret tt
    end ;;
    ret (Some modules)
  else ret None.

End Hooks.

End Shared.

(** ** Variant [Cached]: caching decided by [enableCache] and the mode *)

Module Cached.

(** [PulsarPluginOptions]; [enableCache?: boolean]. *)
Record PulsarPluginOptions : Type := mkOptions {
  opt_enableCache : option bool
}.

(** The closure variables of [pulsarPlugin]; [enableCache] is the
    constant destructured from the options. *)
Record plugin : Type := mkPlugin {
  enableCache : bool;
  cachedTransformer : option TransformerHandle;
  cachedProgram : option ProgramHandle;
  isDevMode : bool
}.

Definition set_cachedTransformer (t : option TransformerHandle) (v : plugin) : plugin :=
  mkPlugin (enableCache v) t (cachedProgram v) (isDevMode v).
Definition set_cachedProgram (p : option ProgramHandle) (v : plugin) : plugin :=
  mkPlugin (enableCache v) (cachedTransformer v) p (isDevMode v).
Definition set_isDevMode (b : bool) (v : plugin) : plugin :=
  mkPlugin (enableCache v) (cachedTransformer v) (cachedProgram v) b.

(** [const { enableCache = false } = options] and the [let]s. *)
Definition init (options : PulsarPluginOptions) : plugin :=
  mkPlugin (default false (opt_enableCache options)) None None true.

Definition start (options : PulsarPluginOptions) : session plugin :=
  mkSession (init options) 0 [].

(** [const shouldCache = !isDevMode || enableCache]. *)
Definition shouldCache (v : plugin) : bool := negb (isDevMode v) || enableCache v.

(** The locals a parked [transform] call keeps across its [await]. *)
Record parked : Type := mkParked {
  pk_shouldCache : bool;
  pk_code : string;
  pk_id : string
}.

Section Hooks.

Variable emit : TransformerHandle -> option (list string) -> string -> string -> string.

(** [configResolved(config)]. *)
Definition configResolved (cmd : command) : M plugin unit :=
  do v <- read;
  assign (set_isDevMode (command_eqb cmd serve) v) ;;
  do v <- read;
  if isDevMode v && negb (enableCache v) then
    assign (set_cachedProgram None (set_cachedTransformer None v))
  else ret tt.

(** [transform] from [ts.createSourceFile] on, with the locals
    [shouldCache] and [transformer] already bound. *)
Definition transform_rest (sc : bool) (transformer : TransformerHandle)
    (code id : string) : M plugin outcome :=
  let fileName := Js.split_pop id in
  do v <- read;
  do program <-
    match (if sc then cachedProgram v else None) with
    | Some p => ret p
    | None =>
        do p <- createProgram [id];
        do v <- read;
        (if sc then assign (set_cachedProgram (Some p) v) else ret tt) ;;
        ret p
    end;
  do outputCode <- transform_and_print emit transformer (Some program) id code;
  do v <- read;
  (if isDevMode v then console_log fileName (Some (if sc then cached else fresh))
   else ret tt) ;;
  ret (Output outputCode).

(** [transform] up to its [await]. *)
Definition transform_begin (code id : string) : M plugin (progress parked) :=
  if negb (isTsx id) then ret (Settled Null)
  else
    do v <- read;
    let sc := shouldCache v in
    match (if sc then cachedTransformer v else None) with
    | Some t =>
        do o <- transform_rest sc t code id;
        ret (Settled o)
    | None =>
        import_call ;;
        ret (AwaitingImport (mkParked sc code id))
    end.

(** [transform] from the point where the awaited import has resolved. *)
Definition transform_resume (k : parked) : M plugin outcome :=
  let transformer := TransformerDefault in
  do v <- read;
  (if pk_shouldCache k then assign (set_cachedTransformer (Some transformer) v)
   else ret tt) ;;
  transform_rest (pk_shouldCache k) transformer (pk_code k) (pk_id k).

(** One [transform] call running with no other call interleaved. *)
Definition transform (code id : string) : M plugin outcome :=
  do r <- transform_begin code id;
  match r with
  | Settled o => ret o
  | AwaitingImport k => transform_resume k
  end.

(** [handleHotUpdate(ctx)]. *)
Definition handleHotUpdate (file : string) (modules : list ModuleNode)
    : M plugin (option (list ModuleNode)) :=
  if isTsx file then
    do v <- read;
    assign (set_cachedProgram None v) ;;
    match List.find (fun m => bool_decide (mn_file m = Some file)) modules with
    | Some m => tell (EvInvalidateModule m)
    | None => ret tt
    end ;;
    ret (Some modules)
  else ret None.

End Hooks.

End Cached.

(** ** Variant [Temp]: module-level caches, [transform] only *)

Module Temp.

(** The two module-level [let]s. *)
Record plugin : Type := mkPlugin {
  cachedTransformer : option TransformerHandle;
  cachedProgram : option ProgramHandle
}.

Definition init : plugin := mkPlugin None None.

Definition start : session plugin := mkSession init 0 [].

Section Hooks.

Variable emit : TransformerHandle -> option (list string) -> string -> string -> string.

(** [transform] from [ts.createSourceFile] on. *)
Definition transform_rest (code id : string) : M plugin outcome :=
  let fileName := Js.split_pop id in
  do v <- read;
  (match cachedProgram v with
   | Some _ => ret tt
   | None =>
       do p <- createProgram [id];
       do v <- read;
       assign (mkPlugin (cachedTransformer v) (Some p))
   end) ;;
  do v <- read;
  match cachedTransformer v with
  | None => ret Rejected
  | Some t =>
      do outputCode <- transform_and_print emit t (cachedProgram v) id code;
      console_log fileName None ;;
      ret (Output outputCode)
  end.

(** [transform] up to its [await]. *)
Definition transform_begin (code id : string) : M plugin (progress (string * string)) :=
  if negb (isTsx id) then ret (Settled Null)
  else
    do v <- read;
    match cachedTransformer v with
    | None =>
        import_call ;;
        ret (AwaitingImport (code, id))
    | Some _ =>
        do o <- transform_rest code id;
        ret (Settled o)
    end.

(** [transform] from the point where the awaited import has resolved. *)
Definition transform_resume (k : string * string) : M plugin outcome :=
  let '(code, id) := k in
  do v <- read;
  assign (mkPlugin (Some TransformerDefault) (cachedProgram v)) ;;
  transform_rest code id.

(** One [transform] call running with no other call interleaved. *)
Definition transform (code id : string) : M plugin outcome :=
  do r <- transform_begin code id;
  match r with
  | Settled o => ret o
  | AwaitingImport k => transform_resume k
  end.

End Hooks.

End Temp.

(** ** Sample collaborators and inputs *)

(** A transform step whose output shows the program it was given, the way
    a type-directed transformer depends on its program. *)
Definition emit_typed : TransformerHandle -> option (list string) -> string -> string -> string :=
  fun _ roots id code =>
    match roots with
    | None => "/*no program*/" ++ code
    | Some r => "/*" ++ String.concat "," r ++ "*/" ++ code
    end.

(** ** Calls that overlap *)

(** JavaScript runs one call at a time and switches only at an [await].
    Calls that begin together therefore each run up to their [await]
    before any of them is resumed. *)
Section Race.

Context {V K : Type}.
Variable begin : string -> string -> M V (progress K).
Variable resume : K -> M V outcome.

(** Start every call [(code, id)], in order. *)
Fixpoint begin_all (calls : list (string * string)) : M V (list (progress K)) :=
  match calls with
  | [] => ret []
  | (code, id) :: rest =>
      do p <- begin code id;
      do ps <- begin_all rest;
      ret (p :: ps)
  end.

(** Let every parked call run to its end, in the order they parked. *)
Fixpoint finish_all (ps : list (progress K)) : M V (list outcome) :=
  match ps with
  | [] => ret []
  | Settled o :: rest =>
      do os <- finish_all rest;
      ret (o :: os)
  | AwaitingImport k :: rest =>
      do o <- resume k;
      do os <- finish_all rest;
      ret (o :: os)
  end.

Definition race (calls : list (string * string)) : M V (list outcome) :=
  do ps <- begin_all calls;
  finish_all ps.

End Race.

Definition is_output (o : outcome) : bool :=
  match o with Output _ => true | _ => false end.

(** ** Host sessions *)

(** A hook call made by Vite. *)
Inductive call : Type :=
| ConfigResolved (cmd : command)
| BuildStart
| Transform (code id : string)
| HandleHotUpdate (file : string) (modules : list ModuleNode).

(** [c] is a [transform] call for [id]. *)
Definition is_transform_of (id : string) (c : call) : bool :=
  match c with
  | Transform _ id' => String.eqb id' id
  | _ => false
  end.

Module SharedHost.

Section Run.

Variable emit : TransformerHandle -> option (list string) -> string -> string -> string.

Definition step (c : call) (s : session Shared.plugin) : session Shared.plugin :=
  match c with
  | ConfigResolved cmd => exec (Shared.configResolved cmd) s
  | BuildStart => exec Shared.buildStart s
  | Transform code id => exec (Shared.transform emit code id) s
  | HandleHotUpdate file modules => exec (Shared.handleHotUpdate file modules) s
  end.

(** The session after a sequence of hook calls, oldest first. *)
Definition run_from (s : session Shared.plugin) (cs : list call) : session Shared.plugin :=
  fold_left (fun s c => step c s) cs s.

Definition run (cs : list call) : session Shared.plugin := run_from Shared.start cs.

End Run.

(** The shared program, when there is one, was created with no root
    files and before the current stamp. *)
Definition program_ok (s : session Shared.plugin) : Prop :=
  match Shared.cachedProgram (vars s) with
  | None => True
  | Some p => ph_roots p = [] /\ ph_stamp p < next_stamp s
  end.

End SharedHost.

Module CachedHost.

Section Run.

Variable emit : TransformerHandle -> option (list string) -> string -> string -> string.

(** This variant has no [buildStart] hook, so Vite has nothing to call
    for it. *)
Definition step (c : call) (s : session Cached.plugin) : session Cached.plugin :=
  match c with
  | ConfigResolved cmd => exec (Cached.configResolved cmd) s
  | BuildStart => s
  | Transform code id => exec (Cached.transform emit code id) s
  | HandleHotUpdate file modules => exec (Cached.handleHotUpdate file modules) s
  end.

Definition run_from (s : session Cached.plugin) (cs : list call) : session Cached.plugin :=
  fold_left (fun s c => step c s) cs s.

End Run.

(** Stamp [n0] is in the past and the cached program, when there is one,
    was created at stamp [n0] or later. *)
Definition program_since (n0 : nat) (s : session Cached.plugin) : Prop :=
  n0 <= next_stamp s /\
  match Cached.cachedProgram (vars s) with
  | None => True
  | Some p => n0 <= ph_stamp p
  end.

End CachedHost.

(** ** Properties of a variant's hooks, as predicates *)

(** After a change notification for an eligible [id], the next transform of
    [id] is not handed a program created before the notification. *)
Definition fresh_program_after_change {V : Type}
    (hot : string -> list ModuleNode -> M V (option (list ModuleNode)))
    (transform : string -> string -> M V outcome) : Prop :=
  forall (s : session V) (id : string) (modules : list ModuleNode) (code : string)
         (p : ProgramHandle),
    isTsx id = true ->
    program_passed (effects (transform code id) (exec (hot id modules) s)) = Some (Some p) ->
    next_stamp s <= ph_stamp p.

(** [cachingEnabled = override ?? (mode != development)], in the words of
    the specification. *)
Definition cachingEnabled_spec (override : option bool) (cmd : command) : bool :=
  match override with
  | Some b => b
  | None => negb (command_eqb cmd serve)
  end.

(** On every eligible transform the reported status is [fresh] exactly when
    the identity was not in [transformedFiles], and the identity is in
    [transformedFiles] afterwards. *)
Definition status_tracks_seen
    (emit : TransformerHandle -> option (list string) -> string -> string -> string) : Prop :=
  forall (s : session Shared.plugin) (code id : string),
    isTsx id = true ->
    reported (effects (Shared.transform emit code id) s) =
      Some (if bool_decide (id ∈ Shared.transformedFiles (vars s)) then cached else fresh) /\
    id ∈ Shared.transformedFiles (vars (exec (Shared.transform emit code id) s)).

(** Two plugin states that differ at most in [transformedFiles]. *)
Definition same_but_seen (v1 v2 : Shared.plugin) : Prop :=
  Shared.cachedTransformer v1 = Shared.cachedTransformer v2 /\
  Shared.cachedProgram v1 = Shared.cachedProgram v2 /\
  Shared.isDevMode v1 = Shared.isDevMode v2.

(** A change notification for [A] alters neither the status nor the result
    of the next transform of a different identity [B]. *)
Definition change_does_not_interfere {V : Type}
    (hot : string -> list ModuleNode -> M V (option (list ModuleNode)))
    (transform : string -> string -> M V outcome) : Prop :=
  forall (s : session V) (A B : string) (modules : list ModuleNode) (code : string),
    A <> B ->
    reported (effects (transform code B) (exec (hot A modules) s)) =
      reported (effects (transform code B) s) /\
    eval (transform code B) (exec (hot A modules) s) = eval (transform code B) s.

(** Calls for distinct eligible identities that begin together on an empty
    transformer cache issue one import between them. *)
Definition single_flight {V K : Type} (cacheEmpty : V -> Prop)
    (begin : string -> string -> M V (progress K))
    (resume : K -> M V outcome) : Prop :=
  forall (s : session V) (calls : list (string * string)),
    calls <> [] ->
    cacheEmpty (vars s) ->
    Forall (fun c => isTsx (snd c) = true) calls ->
    NoDup (List.map snd calls) ->
    imports (effects (race begin resume calls) s) = 1.

(** ** Sample sessions *)

(** A [Cached] session in development with [enableCache: true], after one
    transform of [/src/a.tsx]. *)
Definition cached_dev_session : session Cached.plugin :=
  exec (Cached.configResolved serve ;;
        Cached.transform emit_typed "<a/>" "/src/a.tsx")
       (Cached.start (Cached.mkOptions (Some true))).

(** A [Shared] development session after [buildStart] and two transforms
    of [/src/a.tsx]. *)
Definition shared_dev_calls : list call :=
  [ConfigResolved serve; BuildStart;
   Transform "<a/>" "/src/a.tsx"; Transform "<a/>" "/src/a.tsx"].

Definition shared_dev_session : session Shared.plugin :=
  SharedHost.run emit_typed shared_dev_calls.

(** A [Shared] production build, right after [buildStart]. *)
Definition shared_build_session : session Shared.plugin :=
  SharedHost.run emit_typed [ConfigResolved build; BuildStart].

(** A [Shared] development session, right after [buildStart]. *)
Definition shared_ready_session : session Shared.plugin :=
  SharedHost.run emit_typed [ConfigResolved serve; BuildStart].

(** A [Cached] development session with default options (caching off). *)
Definition cached_nocache_session : session Cached.plugin :=
  exec (Cached.configResolved serve) (Cached.start (Cached.mkOptions None)).

(** Two first calls, for two files. *)
Definition two_calls : list (string * string) :=
  [("<a/>", "/src/a.tsx"); ("<b/>", "/src/b.tsx")].

(** ** More readings of a log *)

Definition is_creation (e : event) : bool :=
  match e with EvCreateProgram _ => true | _ => false end.

Definition is_log (e : event) : bool :=
  match e with EvLog _ _ => true | _ => false end.

(** Number of [ts.createProgram] calls in a log. *)
Definition creations (l : list event) : nat := List.length (List.filter is_creation l).

(** Number of lines printed to the console in a log. *)
Definition log_lines (l : list event) : nat := List.length (List.filter is_log l).

(** In [Shared], the programs created so far are: none while the cache is
    empty, otherwise exactly the cached one. *)
Definition shared_creation_inv (s : session Shared.plugin) : Prop :=
  creations (events s) =
    match Shared.cachedProgram (vars s) with Some _ => 1 | None => 0 end /\
  (forall p, In (EvCreateProgram p) (events s) -> Shared.cachedProgram (vars s) = Some p).

(** ** Shapes of strings and of hook calls *)

(** The string contains the separator ['/']. *)
Fixpoint has_slash (s : string) : bool :=
  match s with
  | EmptyString => false
  | String c rest => Ascii.eqb c "/"%char || has_slash rest
  end.

(** [c] is a change notification for [id]. *)
Definition is_hot_update_of (id : string) (c : call) : bool :=
  match c with
  | HandleHotUpdate file _ => String.eqb file id
  | _ => false
  end.

(** [c] is [configResolved] for the development server. *)
Definition is_config_serve (c : call) : bool :=
  match c with
  | ConfigResolved serve => true
  | _ => false
  end.

(** [c] is a [transform] call for a [.tsx] file. *)
Definition is_tsx_transform (c : call) : bool :=
  match c with
  | Transform _ id => isTsx id
  | _ => false
  end.

(** What a [Shared] transform of the call [(code, id)] resolves to while
    the program cache holds [cp]. *)
Definition shared_outcome
    (emit : TransformerHandle -> option (list string) -> string -> string -> string)
    (cp : option ProgramHandle) (c : string * string) : outcome :=
  if isTsx (snd c)
  then Output (emit TransformerDefault (ph_roots <$> cp) (snd c) (fst c))
  else Null.

(** What [Cached] transforms of the calls resolve to, one after the other,
    when caching is [sc] and the cached program, if any, has roots [cp]:
    a [.tsx] call is printed over the reused program or else over a program
    for its own [id], which caching then keeps for the calls after it. *)
Fixpoint cached_outcomes
    (emit : TransformerHandle -> option (list string) -> string -> string -> string)
    (sc : bool) (cp : option (list string)) (calls : list (string * string))
    : list outcome :=
  match calls with
  | [] => []
  | (code, id) :: rest =>
      if isTsx id then
        let roots := match (if sc then cp else None) with
                     | Some r => r
                     | None => [id]
                     end in
        Output (emit TransformerDefault (Some roots) id code)
          :: cached_outcomes emit sc (if sc then Some roots else cp) rest
      else Null :: cached_outcomes emit sc cp rest
  end.

(** One step of [cached_outcomes], as a transform or a resumed call
    performs it. *)
Definition cached_call_spec
    (emit : TransformerHandle -> option (list string) -> string -> string -> string)
    (code id : string) (s : session Cached.plugin)
    (r : outcome * session Cached.plugin) : Prop :=
  let sc := Cached.shouldCache (vars s) in
  let cp := ph_roots <$> Cached.cachedProgram (vars s) in
  let roots := match (if sc then cp else None) with Some r => r | None => [id] end in
  Cached.shouldCache (vars (snd r)) = sc /\
  (if isTsx id
   then fst r = Output (emit TransformerDefault (Some roots) id code) /\
        ph_roots <$> Cached.cachedProgram (vars (snd r)) = (if sc then Some roots else cp)
   else fst r = Null /\ snd r = s).

(** The progress of a call that began on a cold [Cached] plugin. *)
Definition cold_progress (sc : bool) (c : string * string) : progress Cached.parked :=
  if isTsx (snd c) then AwaitingImport (Cached.mkParked sc (fst c) (snd c))
  else Settled Null.

(** [c] is [configResolved] for a build. *)
Definition is_config_build (c : call) : bool :=
  match c with
  | ConfigResolved build => true
  | _ => false
  end.

(** The identity of the first [transform] call for a [.tsx] file. *)
Fixpoint first_tsx (cs : list call) : option string :=
  match cs with
  | [] => None
  | Transform _ id :: rest => if isTsx id then Some id else first_tsx rest
  | _ :: rest => first_tsx rest
  end.

(** ** Host sessions of [Temp] *)

Module TempHost.

Section Run.

Variable emit : TransformerHandle -> option (list string) -> string -> string -> string.

(** The plugin object of this variant has [transform] only; Vite calls
    nothing for the other hooks. *)
Definition step (c : call) (s : session Temp.plugin) : session Temp.plugin :=
  match c with
  | Transform code id => exec (Temp.transform emit code id) s
  | _ => s
  end.

Definition run_from (s : session Temp.plugin) (cs : list call) : session Temp.plugin :=
  fold_left (fun s c => step c s) cs s.

Definition run (cs : list call) : session Temp.plugin := run_from Temp.start cs.

End Run.

End TempHost.

(** ** Calls one after the other *)

Section Sequence.

Context {V : Type}.
Variable transform : string -> string -> M V outcome.

(** Every call [(code, id)] runs to its end before the next begins. *)
Fixpoint transform_each (calls : list (string * string)) : M V (list outcome) :=
  match calls with
  | [] => ret []
  | (code, id) :: rest =>
      do o <- transform code id;
      do os <- transform_each rest;
      ret (o :: os)
  end.

End Sequence.

(** ** Running the monad in proofs *)

Ltac mrun :=
  cbv [bind ret read assign tell import_call createProgram transform_and_print
       console_log exec eval effects clear_log vars next_stamp events fst snd] in *.

Ltac shared_run :=
  cbv [Shared.transform Shared.transform_begin Shared.transform_resume
       Shared.transform_rest Shared.handleHotUpdate Shared.configResolved
       Shared.buildStart Shared.set_cachedTransformer Shared.set_cachedProgram
       Shared.set_transformedFiles Shared.set_isDevMode
       Shared.cachedTransformer Shared.cachedProgram Shared.transformedFiles
       Shared.isDevMode] in *; mrun.

Ltac cached_run :=
  cbv [Cached.transform Cached.transform_begin Cached.transform_resume
       Cached.transform_rest Cached.handleHotUpdate Cached.configResolved
       Cached.shouldCache Cached.set_cachedTransformer Cached.set_cachedProgram
       Cached.set_isDevMode Cached.pk_shouldCache Cached.pk_code Cached.pk_id
       Cached.enableCache Cached.cachedTransformer Cached.cachedProgram
       Cached.isDevMode] in *; mrun.

Ltac temp_run :=
  cbv [Temp.transform Temp.transform_begin Temp.transform_resume
       Temp.transform_rest Temp.cachedTransformer Temp.cachedProgram] in *; mrun.

(** ** The log only grows *)

(** [effects] is what a call adds to the log: the hooks never read it. *)
Lemma shared_transform_log
    (emit : TransformerHandle -> option (list string) -> string -> string -> string)
    (code id : string) (s : session Shared.plugin) :
  events (exec (Shared.transform emit code id) s)
  = (effects (Shared.transform emit code id) s ++ events s)%list.
Proof.
  destruct s as [[ct cp tf dev] n ev]. shared_run.
  destruct (isTsx id); simpl; [| reflexivity].
  destruct ct, dev; reflexivity.
Qed.

Lemma cached_transform_log
    (emit : TransformerHandle -> option (list string) -> string -> string -> string)
    (code id : string) (s : session Cached.plugin) :
  events (exec (Cached.transform emit code id) s)
  = (effects (Cached.transform emit code id) s ++ events s)%list.
Proof.
  destruct s as [[ec ct cp dev] n ev]. cached_run.
  destruct (isTsx id); simpl; [| reflexivity].
  destruct dev, ec, ct, cp; reflexivity.
Qed.

Lemma temp_transform_log
    (emit : TransformerHandle -> option (list string) -> string -> string -> string)
    (code id : string) (s : session Temp.plugin) :
  events (exec (Temp.transform emit code id) s)
  = (effects (Temp.transform emit code id) s ++ events s)%list.
Proof.
  destruct s as [[ct cp] n ev]. temp_run.
  destruct (isTsx id); simpl; [| reflexivity].
  destruct ct, cp; reflexivity.
Qed.

(** ** Files that are not [.tsx] *)

(** C10.  For an identity that does not end in [.tsx], [transform] resolves
    to [null] and the whole session is left as it was, in all three
    variants: the plugin's variables (transformer cache, program cache,
    [transformedFiles], mode), the program stamp and the event log, so no
    import, program creation, transform or log line happened. *)
Theorem transform_skips_other_files
    (emit : TransformerHandle -> option (list string) -> string -> string -> string)
    (code id : string) :
  isTsx id = false ->
  (forall s, Shared.transform emit code id s = (Null, s)) /\
  (forall s, Cached.transform emit code id s = (Null, s)) /\
  (forall s, Temp.transform emit code id s = (Null, s)).
Proof.
  intros Hid. repeat split; intros s.
  - shared_run. now rewrite Hid.
  - cached_run. now rewrite Hid.
  - temp_run. now rewrite Hid.
Qed.

Lemma transform_skips_other_files_witness :
  isTsx "/src/main.ts" = false /\
  (forall s, Shared.transform emit_typed "let x = 1" "/src/main.ts" s = (Null, s)) /\
  (forall s, Cached.transform emit_typed "let x = 1" "/src/main.ts" s = (Null, s)) /\
  (forall s, Temp.transform emit_typed "let x = 1" "/src/main.ts" s = (Null, s)).
Proof.
  split; [reflexivity |].
  apply (transform_skips_other_files emit_typed "let x = 1" "/src/main.ts").
  reflexivity.
Defined.

(** ** What a change notification touches *)

(** C6.  [handleHotUpdate] never writes the transformer cache.  In
    [Shared] it removes the file from [transformedFiles] and leaves the
    other variables alone; in [Cached] it empties the program cache and
    leaves the other variables alone.  For a file that is not [.tsx]
    nothing changes at all. *)
Theorem handleHotUpdate_keeps_transformer (file : string) (modules : list ModuleNode) :
  (forall s : session Shared.plugin,
      let s' := exec (Shared.handleHotUpdate file modules) s in
      Shared.cachedTransformer (vars s') = Shared.cachedTransformer (vars s) /\
      Shared.cachedProgram (vars s') = Shared.cachedProgram (vars s) /\
      Shared.isDevMode (vars s') = Shared.isDevMode (vars s) /\
      Shared.transformedFiles (vars s') =
        (if isTsx file then Shared.transformedFiles (vars s) ∖ {[file]}
         else Shared.transformedFiles (vars s)) /\
      next_stamp s' = next_stamp s) /\
  (forall s : session Cached.plugin,
      let s' := exec (Cached.handleHotUpdate file modules) s in
      Cached.cachedTransformer (vars s') = Cached.cachedTransformer (vars s) /\
      Cached.cachedProgram (vars s') =
        (if isTsx file then None else Cached.cachedProgram (vars s)) /\
      Cached.isDevMode (vars s') = Cached.isDevMode (vars s) /\
      Cached.enableCache (vars s') = Cached.enableCache (vars s) /\
      next_stamp s' = next_stamp s).
Proof.
  split; intros [v n ev]; destruct v; simpl.
  - shared_run. destruct (isTsx file); [| done].
    destruct (List.find _ modules); done.
  - cached_run. destruct (isTsx file); [| done].
    destruct (List.find _ modules); done.
Qed.

(** ** The program handed to a transform after a change *)

(** In [Cached], the transform that follows a change notification for an
    eligible file builds its program in that very call, from that file. *)
Lemma cached_rebuilds_after_change
    (emit : TransformerHandle -> option (list string) -> string -> string -> string)
    (s : session Cached.plugin) (id : string) (modules : list ModuleNode) (code : string) :
  isTsx id = true ->
  program_passed (effects (Cached.transform emit code id)
                          (exec (Cached.handleHotUpdate id modules) s))
  = Some (Some (mkProgram (next_stamp s) [id])).
Proof.
  intros Hid. destruct s as [[ec ct cp dev] n ev].
  cached_run. rewrite Hid. simpl.
  destruct (List.find _ modules); destruct dev, ec, ct; reflexivity.
Qed.

(** In [Shared], a change notification leaves the program cache alone and
    the next transform is handed whatever it holds. *)
Lemma shared_reuses_after_change
    (emit : TransformerHandle -> option (list string) -> string -> string -> string)
    (s : session Shared.plugin) (id : string) (modules : list ModuleNode) (code : string) :
  isTsx id = true ->
  program_passed (effects (Shared.transform emit code id)
                          (exec (Shared.handleHotUpdate id modules) s))
  = Some (Shared.cachedProgram (vars s)).
Proof.
  intros Hid. destruct s as [[ct cp tf dev] n ev].
  shared_run. rewrite Hid. simpl.
  destruct (List.find _ modules); destruct ct, dev; reflexivity.
Qed.

(** Every hook of [Shared] keeps [SharedHost.program_ok]. *)
Lemma shared_step_program_ok
    (emit : TransformerHandle -> option (list string) -> string -> string -> string)
    (c : call) (s : session Shared.plugin) :
  SharedHost.program_ok s -> SharedHost.program_ok (SharedHost.step emit c s).
Proof.
  destruct s as [[ct cp tf dev] n ev]. unfold SharedHost.program_ok.
  destruct c as [cmd | | code id | file modules]; cbv [SharedHost.step]; shared_run.
  - done.
  - destruct cp; [done |]. intros _. simpl. split; [done | lia].
  - destruct (isTsx id); simpl; [| done].
    destruct ct, dev; done.
  - destruct (isTsx file); simpl; [| done].
    destruct (List.find _ modules); done.
Qed.

Lemma shared_run_program_ok
    (emit : TransformerHandle -> option (list string) -> string -> string -> string)
    (cs : list call) :
  SharedHost.program_ok (SharedHost.run emit cs).
Proof.
  unfold SharedHost.run, SharedHost.run_from.
  assert (Hstart : SharedHost.program_ok Shared.start) by exact I.
  revert Hstart. generalize Shared.start.
  induction cs as [| c cs IH]; intros s Hs; simpl; [done |].
  apply IH. now apply shared_step_program_ok.
Qed.

(** Every hook of [Cached] keeps [CachedHost.program_since]: programs are
    only ever created at the current stamp. *)
Lemma cached_step_program_since
    (emit : TransformerHandle -> option (list string) -> string -> string -> string)
    (n0 : nat) (c : call) (s : session Cached.plugin) :
  CachedHost.program_since n0 s -> CachedHost.program_since n0 (CachedHost.step emit c s).
Proof.
  destruct s as [[ec ct cp dev] n ev]. unfold CachedHost.program_since. simpl.
  intros [Hn Hp].
  destruct c as [cmd | | code id | file modules]; cbv [CachedHost.step]; cached_run.
  - destruct cmd, ec; simpl; auto.
  - simpl. auto.
  - destruct (isTsx id); simpl; [| auto].
    destruct dev, ec, ct, cp; simpl; split; auto; lia.
  - destruct (isTsx file); simpl; [| auto].
    destruct (List.find _ modules); simpl; auto.
Qed.

Lemma cached_run_program_since
    (emit : TransformerHandle -> option (list string) -> string -> string -> string)
    (n0 : nat) (cs : list call) (s : session Cached.plugin) :
  CachedHost.program_since n0 s ->
  CachedHost.program_since n0 (CachedHost.run_from emit s cs).
Proof.
  unfold CachedHost.run_from. revert s.
  induction cs as [| c cs IH]; intros s Hs; simpl; [done |].
  apply IH. now apply cached_step_program_since.
Qed.

(** Under [CachedHost.program_since n0], the program a transform is handed
    was created at stamp [n0] or later, whether reused or built. *)
Lemma cached_program_passed_since
    (emit : TransformerHandle -> option (list string) -> string -> string -> string)
    (n0 : nat) (code id : string) (s : session Cached.plugin) (p : ProgramHandle) :
  CachedHost.program_since n0 s ->
  program_passed (effects (Cached.transform emit code id) s) = Some (Some p) ->
  n0 <= ph_stamp p.
Proof.
  destruct s as [[ec ct cp dev] n ev]. unfold CachedHost.program_since. simpl.
  intros [Hn Hp]. cached_run.
  destruct (isTsx id); simpl; [| discriminate].
  destruct dev, ec, ct, cp; simpl; intros [= <-]; simpl; auto.
Qed.

(** C1, as the code has it.  In [Cached] the program cache is emptied by
    the notification, so the next transform of the file is handed a program
    created after it: in that call and from that file when the transform
    follows directly, and in any case not before the notification, whatever
    hook calls come in between.  In [Shared] the notification does not
    touch the program cache: the next transform is handed the program
    cached before, which in every host session is the one [buildStart]
    created from an empty list of root files. *)
Theorem program_after_change
    (emit : TransformerHandle -> option (list string) -> string -> string -> string) :
  fresh_program_after_change Cached.handleHotUpdate (Cached.transform emit) /\
  (forall s id modules cs code p,
      isTsx id = true ->
      program_passed
        (effects (Cached.transform emit code id)
                 (CachedHost.run_from emit (exec (Cached.handleHotUpdate id modules) s) cs))
      = Some (Some p) ->
      next_stamp s <= ph_stamp p) /\
  (forall s id modules code,
      isTsx id = true ->
      program_passed (effects (Shared.transform emit code id)
                              (exec (Shared.handleHotUpdate id modules) s))
      = Some (Shared.cachedProgram (vars s))) /\
  (forall cs, SharedHost.program_ok (SharedHost.run emit cs)).
Proof.
  split; [| split; [| split]].
  - intros s id modules code p Hid Hp.
    rewrite (cached_rebuilds_after_change emit s id modules code Hid) in Hp.
    injection Hp as <-. simpl. lia.
  - intros s id modules cs code p Hid Hp.
    eapply (cached_program_passed_since emit (next_stamp s) code id); [| exact Hp].
    apply cached_run_program_since.
    destruct s as [[ec ct cp dev] n ev]. unfold CachedHost.program_since.
    cached_run. rewrite Hid. simpl.
    destruct (List.find _ modules); simpl; auto.
  - intros. now apply shared_reuses_after_change.
  - apply shared_run_program_ok.
Qed.

Lemma program_after_change_witness :
  next_stamp cached_dev_session <= 1 /\
  program_passed (effects (Shared.transform emit_typed "<a2/>" "/src/a.tsx")
                          (exec (Shared.handleHotUpdate "/src/a.tsx" []) shared_dev_session))
  = Some (Shared.cachedProgram (vars shared_dev_session)).
Proof.
  destruct (program_after_change emit_typed) as (Hc & _ & Hs & _).
  split.
  - apply (Hc cached_dev_session "/src/a.tsx" [] "<a2/>" (mkProgram 1 ["/src/a.tsx"])).
    + reflexivity.
    + vm_compute. reflexivity.
  - apply Hs. reflexivity.
Defined.

(** C1, as stated, fails in [Shared]: after [buildStart], a transform, and
    a change notification for the same file, the next transform is handed
    the program created by [buildStart] (stamp [0]), older than the
    notification (stamp [1]). *)
Lemma shared_program_predates_change :
  ~ fresh_program_after_change Shared.handleHotUpdate (Shared.transform emit_typed).
Proof.
  intros H.
  specialize (H shared_dev_session "/src/a.tsx" [] "<a2/>" (mkProgram 0 [])).
  assert (Hle : next_stamp shared_dev_session <= 0).
  { apply H; vm_compute; reflexivity. }
  vm_compute in Hle. lia.
Qed.

(** ** Configuration *)

(** C2, as the code has it.  For a plugin created with [options],
    [configResolved] makes the mode development exactly for the [serve]
    command, and from then on caching is on when the mode is not
    development or [enableCache] was passed as [true]; this is the
    specification's [override ?? (mode != development)] unless [false] was
    passed explicitly for a build.  When the mode is development and caching
    is off, both caches are empty after [configResolved]. *)
Theorem configResolved_caching
    (options : Cached.PulsarPluginOptions) (cmd : command) (s : session Cached.plugin) :
  Cached.enableCache (vars s) = default false (Cached.opt_enableCache options) ->
  let s' := exec (Cached.configResolved cmd) s in
  Cached.isDevMode (vars s') = command_eqb cmd serve /\
  Cached.shouldCache (vars s') =
    negb (command_eqb cmd serve) || default false (Cached.opt_enableCache options) /\
  (Cached.opt_enableCache options <> Some false \/ cmd = serve ->
   Cached.shouldCache (vars s') = cachingEnabled_spec (Cached.opt_enableCache options) cmd) /\
  (Cached.isDevMode (vars s') = true -> Cached.shouldCache (vars s') = false ->
   Cached.cachedTransformer (vars s') = None /\ Cached.cachedProgram (vars s') = None) /\
  next_stamp s' = next_stamp s /\ events s' = events s.
Proof.
  destruct s as [[ec ct cp dev] n ev]. destruct options as [o]. simpl.
  intros ->. cached_run. simpl.
  destruct cmd, o as [[|]|]; simpl; repeat split; try done.
  intros [H | H]; [by destruct H | done].
Qed.

Lemma configResolved_caching_witness :
  let s' := exec (Cached.configResolved serve) cached_dev_session in
  Cached.shouldCache (vars s') = cachingEnabled_spec (Some true) serve.
Proof.
  pose proof (configResolved_caching (Cached.mkOptions (Some true)) serve
                cached_dev_session eq_refl) as H.
  simpl in H. destruct H as (_ & _ & H & _).
  apply H. left. discriminate.
Defined.

(** C2, as stated, fails: with [enableCache: false] passed explicitly and
    the [build] command, caching is on, where the specification's
    [override ?? (mode != development)] is [false]. *)
Lemma explicit_false_does_not_disable_build_cache :
  Cached.shouldCache
    (vars (exec (Cached.configResolved build)
                (Cached.start (Cached.mkOptions (Some false)))))
  <> cachingEnabled_spec (Some false) build.
Proof. vm_compute. discriminate. Qed.

(** ** Program construction *)

(** When [Cached] does find a program to reuse, that program is the one
    handed on and none is created. *)
Lemma cached_program_reused
    (emit : TransformerHandle -> option (list string) -> string -> string -> string)
    (code id : string) (s : session Cached.plugin) (p : ProgramHandle) :
  isTsx id = true ->
  Cached.shouldCache (vars s) = true ->
  Cached.cachedProgram (vars s) = Some p ->
  program_passed (effects (Cached.transform emit code id) s) = Some (Some p) /\
  next_stamp (exec (Cached.transform emit code id) s) = next_stamp s.
Proof.
  intros Hid. destruct s as [[ec ct cp dev] n ev]. simpl. intros Hsc ->.
  cached_run. rewrite Hid. simpl.
  destruct dev, ec, ct; simpl in *; try discriminate; done.
Qed.

(** Once [buildStart] has run, [Shared] always has a program cached. *)
Lemma shared_step_keeps_program
    (emit : TransformerHandle -> option (list string) -> string -> string -> string)
    (c : call) (s : session Shared.plugin) :
  is_Some (Shared.cachedProgram (vars s)) ->
  is_Some (Shared.cachedProgram (vars (SharedHost.step emit c s))).
Proof.
  destruct s as [[ct cp tf dev] n ev]. simpl. intros [p ->].
  destruct c as [cmd | | code id | file modules]; cbv [SharedHost.step]; shared_run.
  - by eexists.
  - by eexists.
  - destruct (isTsx id); simpl; [| by eexists].
    destruct ct, dev; by eexists.
  - destruct (isTsx file); simpl; [| by eexists].
    destruct (List.find _ modules); by eexists.
Qed.

Lemma shared_program_after_buildStart
    (emit : TransformerHandle -> option (list string) -> string -> string -> string)
    (cs1 cs2 : list call) :
  is_Some (Shared.cachedProgram (vars (SharedHost.run emit (cs1 ++ BuildStart :: cs2)%list))).
Proof.
  unfold SharedHost.run, SharedHost.run_from.
  rewrite fold_left_app. simpl.
  generalize (fold_left (fun s c => SharedHost.step emit c s) cs1 Shared.start).
  intros s0.
  assert (Hs : is_Some (Shared.cachedProgram (vars (exec Shared.buildStart s0)))).
  { destruct s0 as [[ct cp tf dev] n ev]. shared_run. destruct cp; by eexists. }
  revert Hs. generalize (exec Shared.buildStart s0).
  induction cs2 as [| c cs2 IH]; intros s Hs; simpl; [exact Hs |].
  apply IH. now apply shared_step_keeps_program.
Qed.

(** C3.  A [transform] call that has no cached program to reuse (in
    [Cached]: caching is off or the program cache is empty; in [Temp]: the
    program cache is empty) creates one program, from the list holding
    exactly this call's [id], and that program is the one handed to the
    transform step together with this call's [id] and [code].  [Shared]
    never needs a build inside [transform]: in every host session in which
    [buildStart] has run there is a cached program, and it is handed on
    without any program being created. *)
Theorem fresh_program_built_from_identity
    (emit : TransformerHandle -> option (list string) -> string -> string -> string)
    (code id : string) :
  isTsx id = true ->
  (forall s : session Cached.plugin,
      (if Cached.shouldCache (vars s) then Cached.cachedProgram (vars s) else None) = None ->
      let fx := effects (Cached.transform emit code id) s in
      let p := mkProgram (next_stamp s) [id] in
      program_passed fx = Some (Some p) /\
      In (EvCreateProgram p) fx /\
      In (EvTransform TransformerDefault (Some p) id code) fx) /\
  (forall s : session Temp.plugin,
      Temp.cachedProgram (vars s) = None ->
      let fx := effects (Temp.transform emit code id) s in
      let p := mkProgram (next_stamp s) [id] in
      program_passed fx = Some (Some p) /\
      In (EvCreateProgram p) fx /\
      In (EvTransform TransformerDefault (Some p) id code) fx) /\
  (forall cs1 cs2 : list call,
      let s := SharedHost.run emit (cs1 ++ BuildStart :: cs2)%list in
      exists p,
        Shared.cachedProgram (vars s) = Some p /\
        program_passed (effects (Shared.transform emit code id) s) = Some (Some p) /\
        next_stamp (exec (Shared.transform emit code id) s) = next_stamp s).
Proof.
  intros Hid. split; [| split].
  - intros [[ec ct cp dev] n ev]. simpl. intros Hno.
    cached_run. rewrite Hid. simpl.
    destruct dev, ec, ct as [[]|], cp; simpl in *; try discriminate; intuition.
  - intros [[ct cp] n ev]. simpl. intros ->.
    temp_run. rewrite Hid. simpl.
    destruct ct as [[]|]; simpl; intuition.
  - intros cs1 cs2 s.
    destruct (shared_program_after_buildStart emit cs1 cs2) as [p Hp].
    fold s in Hp. exists p. split; [exact Hp |].
    destruct s as [[ct cp tf dev] n ev]. simpl in Hp. subst cp.
    shared_run. rewrite Hid. simpl.
    destruct ct, dev; split; reflexivity.
Qed.

Lemma fresh_program_built_from_identity_witness :
  let fx := effects (Cached.transform emit_typed "<b/>" "/src/b.tsx")
                    (exec (Cached.handleHotUpdate "/src/a.tsx" []) cached_dev_session) in
  program_passed fx = Some (Some (mkProgram 1 ["/src/b.tsx"])) /\
  In (EvCreateProgram (mkProgram 1 ["/src/b.tsx"])) fx /\
  In (EvTransform TransformerDefault (Some (mkProgram 1 ["/src/b.tsx"]))
                  "/src/b.tsx" "<b/>") fx.
Proof.
  destruct (fresh_program_built_from_identity emit_typed "<b/>" "/src/b.tsx" eq_refl)
    as (Hc & _ & _).
  apply (Hc (exec (Cached.handleHotUpdate "/src/a.tsx" []) cached_dev_session)).
  reflexivity.
Defined.

(** ** The status tag *)

(** A hook call other than a transform of [id] does not put [id] into
    [transformedFiles]. *)
Lemma shared_step_keeps_unseen
    (emit : TransformerHandle -> option (list string) -> string -> string -> string)
    (id : string) (c : call) (s : session Shared.plugin) :
  is_transform_of id c = false ->
  id ∉ Shared.transformedFiles (vars s) ->
  id ∉ Shared.transformedFiles (vars (SharedHost.step emit c s)).
Proof.
  destruct s as [[ct cp tf dev] n ev]. simpl.
  destruct c as [cmd | | code id' | file modules]; cbv [SharedHost.step is_transform_of];
    intros Hc Hout; shared_run.
  - exact Hout.
  - destruct cp; exact Hout.
  - apply String.eqb_neq in Hc.
    assert (Hadd : id ∉ ({[id']} : gset string) ∪ tf).
    { apply not_elem_of_union. split; [| exact Hout].
      apply not_elem_of_singleton. congruence. }
    destruct (isTsx id'); simpl; [| exact Hout].
    destruct ct, dev; simpl; assumption.
  - assert (Hdel : id ∉ tf ∖ {[file]}).
    { apply not_elem_of_difference. now left. }
    destruct (isTsx file); simpl; [| exact Hout].
    destruct (List.find _ modules); simpl; exact Hdel.
Qed.

Lemma shared_run_keeps_unseen
    (emit : TransformerHandle -> option (list string) -> string -> string -> string)
    (id : string) (cs : list call) (s : session Shared.plugin) :
  Forall (fun c => is_transform_of id c = false) cs ->
  id ∉ Shared.transformedFiles (vars s) ->
  id ∉ Shared.transformedFiles (vars (SharedHost.run_from emit s cs)).
Proof.
  unfold SharedHost.run_from. intros Hcs. revert s.
  induction Hcs as [| c cs Hc _ IH]; intros s Hs; simpl; [exact Hs |].
  apply IH. now apply shared_step_keeps_unseen.
Qed.

(** The status a [Shared] transform prints for a file that is not in
    [transformedFiles]. *)
Lemma shared_status_when_unseen
    (emit : TransformerHandle -> option (list string) -> string -> string -> string)
    (code id : string) (s : session Shared.plugin) :
  isTsx id = true ->
  id ∉ Shared.transformedFiles (vars s) ->
  reported (effects (Shared.transform emit code id) s) =
    if Shared.isDevMode (vars s) then Some fresh else None.
Proof.
  intros Hid. destruct s as [[ct cp tf dev] n ev]. simpl. intros Hout.
  shared_run. rewrite Hid. simpl.
  destruct ct, dev; simpl; rewrite ?bool_decide_eq_false_2 by exact Hout; reflexivity.
Qed.

(** C4.  After a change notification for an eligible [id] the file is out
    of [transformedFiles] and stays out until [id] is transformed again,
    whatever other hook calls come in between.  So the next transform of
    [id] never reports [cached]; in a development session, the only kind in
    which Vite delivers change notifications and the plugin prints a
    status, it reports [fresh].  This holds from every session, in
    particular from one whose last transform of [id] reported [cached]. *)
Theorem fresh_after_change
    (emit : TransformerHandle -> option (list string) -> string -> string -> string)
    (s : session Shared.plugin) (id : string) (modules : list ModuleNode)
    (cs : list call) (code : string) :
  isTsx id = true ->
  Forall (fun c => is_transform_of id c = false) cs ->
  let s2 := SharedHost.run_from emit (exec (Shared.handleHotUpdate id modules) s) cs in
  let st := reported (effects (Shared.transform emit code id) s2) in
  (id ∉ Shared.transformedFiles (vars s2)) /\
  st <> Some cached /\
  (Shared.isDevMode (vars s2) = true -> st = Some fresh).
Proof.
  intros Hid Hcs s2 st.
  assert (Hout : id ∉ Shared.transformedFiles (vars s2)).
  { apply shared_run_keeps_unseen; [exact Hcs |].
    destruct s as [[ct cp tf dev] n ev]. shared_run. rewrite Hid. simpl.
    assert (Hdel : id ∉ tf ∖ {[id]}).
    { apply not_elem_of_difference. right. now apply elem_of_singleton. }
    destruct (List.find _ modules); exact Hdel. }
  split; [exact Hout |].
  subst st. rewrite (shared_status_when_unseen emit code id s2 Hid Hout).
  destruct (Shared.isDevMode (vars s2)); split; congruence.
Qed.

Lemma fresh_after_change_witness :
  reported (effects (Shared.transform emit_typed "<a/>" "/src/a.tsx")
                    (SharedHost.run emit_typed
                       [ConfigResolved serve; BuildStart;
                        Transform "<a/>" "/src/a.tsx"]))
  = Some cached /\
  reported (effects (Shared.transform emit_typed "<a2/>" "/src/a.tsx")
                    (SharedHost.run_from emit_typed
                       (exec (Shared.handleHotUpdate "/src/a.tsx" []) shared_dev_session)
                       [Transform "<b/>" "/src/b.tsx"]))
  = Some fresh.
Proof.
  split; [vm_compute; reflexivity |].
  apply (fresh_after_change emit_typed shared_dev_session "/src/a.tsx" []
           [Transform "<b/>" "/src/b.tsx"] "<a2/>").
  - reflexivity.
  - repeat constructor.
  - vm_compute. reflexivity.
Defined.

(** [Shared.transform] decides its handles without looking at
    [transformedFiles]. *)
Lemma shared_transform_ignores_seen
    (emit : TransformerHandle -> option (list string) -> string -> string -> string)
    (code id : string) (s s2 : session Shared.plugin) :
  same_but_seen (vars s) (vars s2) ->
  let tr := Shared.transform emit code id in
  program_passed (effects tr s2) = program_passed (effects tr s) /\
  transformer_passed (effects tr s2) = transformer_passed (effects tr s) /\
  imports (effects tr s2) = imports (effects tr s) /\
  eval tr s2 = eval tr s /\
  same_but_seen (vars (exec tr s)) (vars (exec tr s2)).
Proof.
  destruct s as [[ct cp tf dev] n ev], s2 as [[ct2 cp2 tf2 dev2] n2 ev2].
  unfold same_but_seen. simpl. intros (<- & <- & <-).
  shared_run. destruct (isTsx id); simpl; [| done].
  destruct ct, dev; done.
Qed.

(** The tag printed by [Cached] tells whether caching is on. *)
Lemma cached_status_is_policy
    (emit : TransformerHandle -> option (list string) -> string -> string -> string)
    (code id : string) (s : session Cached.plugin) :
  isTsx id = true ->
  reported (effects (Cached.transform emit code id) s) =
    if Cached.isDevMode (vars s)
    then Some (if Cached.shouldCache (vars s) then cached else fresh)
    else None.
Proof.
  intros Hid. destruct s as [[ec ct cp dev] n ev].
  cached_run. rewrite Hid. simpl.
  destruct dev, ec, ct, cp; reflexivity.
Qed.

(** C5, as the code has it.  In [Shared], a development-mode transform of
    an eligible [id] reports [fresh] exactly when [id] was not in
    [transformedFiles] and [cached] otherwise, and adds [id] to the set;
    outside development mode it reports nothing and leaves the set as it
    was.  Either way the set has no influence on the handles used, the
    imports made, the result, or the caches left behind.  In [Cached] the
    tag does not track identities at all: it shows whether caching is on. *)
Theorem status_is_observational
    (emit : TransformerHandle -> option (list string) -> string -> string -> string)
    (s : session Shared.plugin) (code id : string) :
  isTsx id = true ->
  let tr := Shared.transform emit code id in
  (Shared.isDevMode (vars s) = true ->
   reported (effects tr s) =
     Some (if bool_decide (id ∈ Shared.transformedFiles (vars s)) then cached else fresh) /\
   Shared.transformedFiles (vars (exec tr s)) = {[id]} ∪ Shared.transformedFiles (vars s)) /\
  (Shared.isDevMode (vars s) = false ->
   reported (effects tr s) = None /\
   Shared.transformedFiles (vars (exec tr s)) = Shared.transformedFiles (vars s)) /\
  (forall s2 : session Shared.plugin,
      same_but_seen (vars s) (vars s2) ->
      program_passed (effects tr s2) = program_passed (effects tr s) /\
      transformer_passed (effects tr s2) = transformer_passed (effects tr s) /\
      imports (effects tr s2) = imports (effects tr s) /\
      eval tr s2 = eval tr s /\
      same_but_seen (vars (exec tr s)) (vars (exec tr s2))) /\
  (forall sc : session Cached.plugin,
      reported (effects (Cached.transform emit code id) sc) =
        if Cached.isDevMode (vars sc)
        then Some (if Cached.shouldCache (vars sc) then cached else fresh)
        else None).
Proof.
  intros Hid tr. split; [| split; [| split]].
  - intros Hdev. destruct s as [[ct cp tf dev] n ev]. simpl in Hdev. subst dev tr.
    shared_run. rewrite Hid. simpl. destruct ct; split; reflexivity.
  - intros Hdev. destruct s as [[ct cp tf dev] n ev]. simpl in Hdev. subst dev tr.
    shared_run. rewrite Hid. simpl. destruct ct; split; reflexivity.
  - intros s2 Hs2. now apply shared_transform_ignores_seen.
  - intros sc. now apply cached_status_is_policy.
Qed.

Lemma status_is_observational_witness :
  reported (effects (Shared.transform emit_typed "<a/>" "/src/a.tsx") shared_dev_session)
  = Some (if bool_decide ("/src/a.tsx" ∈ Shared.transformedFiles (vars shared_dev_session))
          then cached else fresh).
Proof.
  destruct (status_is_observational emit_typed shared_dev_session "<a/>" "/src/a.tsx" eq_refl)
    as [Hdev _].
  apply Hdev. reflexivity.
Defined.

(** C5, as stated, fails: in a production build the first transform of
    [/src/a.tsx] reports no status at all, where the claim has [fresh]. *)
Lemma no_status_in_production :
  ~ status_tracks_seen emit_typed.
Proof.
  intros H.
  destruct (H shared_build_session "<a/>" "/src/a.tsx" eq_refl) as [Hst _].
  vm_compute in Hst. discriminate.
Qed.

(** ** A change to one file and the next transform of another *)

Lemma seen_after_other_removed (tf : gset string) (A B : string) :
  A <> B -> bool_decide (B ∈ tf ∖ {[A]}) = bool_decide (B ∈ tf).
Proof.
  intros Hne. apply bool_decide_ext.
  rewrite elem_of_difference, elem_of_singleton.
  split; [intros [HB _]; exact HB | intros HB; split; [exact HB | congruence]].
Qed.

Lemma shared_change_does_not_interfere
    (emit : TransformerHandle -> option (list string) -> string -> string -> string) :
  change_does_not_interfere Shared.handleHotUpdate (Shared.transform emit).
Proof.
  intros [[ct cp tf dev] n ev] A B modules code Hne.
  shared_run. destruct (isTsx A), (isTsx B); simpl; try done;
    destruct (List.find _ modules); simpl;
    destruct ct, dev; simpl; rewrite ?(seen_after_other_removed tf A B Hne); done.
Qed.

(** What [Cached.transform] resolves to: the text printed over the cached
    program when one is reused, over a program for [id] otherwise. *)
Lemma cached_transform_result
    (emit : TransformerHandle -> option (list string) -> string -> string -> string)
    (code id : string) (s : session Cached.plugin) :
  isTsx id = true ->
  eval (Cached.transform emit code id) s =
    Output (emit TransformerDefault
              (Some (match (if Cached.shouldCache (vars s)
                            then Cached.cachedProgram (vars s) else None) with
                     | Some p => ph_roots p
                     | None => [id]
                     end))
              id code).
Proof.
  intros Hid. destruct s as [[ec ct cp dev] n ev].
  cached_run. rewrite Hid. simpl.
  destruct dev, ec, ct as [[]|], cp; reflexivity.
Qed.

(** C7, as the code has it.  In [Shared] a change notification for [A]
    alters neither the status nor the result of the next transform of a
    different [B].  In [Cached] it never alters the status, and it leaves
    the result alone whenever that transform would not have reused a cached
    program built from other roots (caching off, program cache empty, or
    the cached program built from [B] itself), or whenever the transform
    step does not depend on the program it is given.  Otherwise [B] is
    transformed over a program rebuilt from [B] in place of the cached
    one. *)
Theorem change_interference
    (emit : TransformerHandle -> option (list string) -> string -> string -> string) :
  change_does_not_interfere Shared.handleHotUpdate (Shared.transform emit) /\
  (forall (s : session Cached.plugin) (A B : string) (modules : list ModuleNode)
          (code : string),
      let s1 := exec (Cached.handleHotUpdate A modules) s in
      let tr := Cached.transform emit code B in
      reported (effects tr s1) = reported (effects tr s) /\
      (match (if Cached.shouldCache (vars s) then Cached.cachedProgram (vars s) else None) with
       | Some p => ph_roots p = [B]
       | None => True
       end -> eval tr s1 = eval tr s) /\
      ((forall r r', emit TransformerDefault r B code = emit TransformerDefault r' B code) ->
       eval tr s1 = eval tr s) /\
      (isTsx A = true -> isTsx B = true ->
       eval tr s1 = Output (emit TransformerDefault (Some [B]) B code))).
Proof.
  split; [apply shared_change_does_not_interfere |].
  intros s A B modules code s1 tr.
  destruct (isTsx B) eqn:HB.
  2:{ subst s1 tr. destruct s as [[ec ct cp dev] n ev].
      cached_run. rewrite HB. simpl.
      destruct (isTsx A); simpl; try destruct (List.find _ modules); simpl; done. }
  assert (Hv : Cached.isDevMode (vars s1) = Cached.isDevMode (vars s) /\
               Cached.shouldCache (vars s1) = Cached.shouldCache (vars s) /\
               Cached.cachedProgram (vars s1) =
                 if isTsx A then None else Cached.cachedProgram (vars s)).
  { subst s1. destruct s as [[ec ct cp dev] n ev]. cached_run.
    destruct (isTsx A); [destruct (List.find _ modules) |]; simpl; done. }
  destruct Hv as (Hdev & Hsc & Hcp).
  subst tr. rewrite !cached_status_is_policy, !cached_transform_result by exact HB.
  rewrite Hdev, Hsc, Hcp.
  split; [reflexivity |].
  destruct (Cached.shouldCache (vars s)), (isTsx A), (Cached.cachedProgram (vars s));
    repeat split; intros; try reflexivity; try congruence; auto;
    f_equal; auto.
Qed.

Lemma change_interference_witness :
  eval (Cached.transform emit_typed "<b/>" "/src/b.tsx")
       (exec (Cached.handleHotUpdate "/src/a.tsx" []) cached_nocache_session)
  = eval (Cached.transform emit_typed "<b/>" "/src/b.tsx") cached_nocache_session /\
  eval (Cached.transform emit_typed "<b/>" "/src/b.tsx")
       (exec (Cached.handleHotUpdate "/src/a.tsx" []) cached_dev_session)
  = Output (emit_typed TransformerDefault (Some ["/src/b.tsx"]) "/src/b.tsx" "<b/>").
Proof.
  destruct (change_interference emit_typed) as [_ Hc].
  split.
  - destruct (Hc cached_nocache_session "/src/a.tsx" "/src/b.tsx" [] "<b/>")
      as (_ & H & _).
    apply H. vm_compute. exact I.
  - destruct (Hc cached_dev_session "/src/a.tsx" "/src/b.tsx" [] "<b/>")
      as (_ & _ & _ & H).
    apply H; reflexivity.
Defined.

(** C7, as stated, fails in [Cached]: in a development session with
    [enableCache: true] that has transformed [/src/a.tsx], the next
    transform of [/src/b.tsx] runs over the cached program built from
    [/src/a.tsx]; after a change notification for [/src/a.tsx] it runs over
    a new program built from [/src/b.tsx], and a transform step that
    depends on its program prints a different text. *)
Lemma cached_change_reaches_other_file :
  ~ change_does_not_interfere Cached.handleHotUpdate (Cached.transform emit_typed).
Proof.
  intros H.
  destruct (H cached_dev_session "/src/a.tsx" "/src/b.tsx" [] "<b/>") as [_ Hout].
  - discriminate.
  - vm_compute in Hout. discriminate.
Qed.

(** ** Transforms with caching off *)

(** C8.  With caching off in [Cached], a transform writes none of the
    plugin's variables; so repeating a call gives the same result, and the
    result and status of a later call, for any identity, are what they
    would have been without the two calls. *)
Theorem no_cache_calls_are_independent
    (emit : TransformerHandle -> option (list string) -> string -> string -> string)
    (s : session Cached.plugin) (c id c3 id3 : string) :
  Cached.shouldCache (vars s) = false ->
  let tr := Cached.transform emit c id in
  let s1 := exec tr s in
  let s2 := exec tr s1 in
  eval tr s1 = eval tr s /\
  vars s1 = vars s /\
  vars s2 = vars s /\
  eval (Cached.transform emit c3 id3) s2 = eval (Cached.transform emit c3 id3) s /\
  reported (effects (Cached.transform emit c3 id3) s2)
  = reported (effects (Cached.transform emit c3 id3) s).
Proof.
  destruct s as [[ec ct cp dev] n ev]. simpl. intros Hsc.
  assert (dev = true /\ ec = false) as [-> ->] by (destruct dev, ec; auto).
  cached_run. destruct (isTsx id), (isTsx id3); simpl; done.
Qed.

Lemma no_cache_calls_are_independent_witness :
  let tr := Cached.transform emit_typed "<a/>" "/src/a.tsx" in
  eval tr (exec tr cached_nocache_session) = eval tr cached_nocache_session /\
  eval tr cached_nocache_session = Output "/*/src/a.tsx*/<a/>".
Proof.
  split; [| vm_compute; reflexivity].
  apply (no_cache_calls_are_independent emit_typed cached_nocache_session
           "<a/>" "/src/a.tsx" "<b/>" "/src/b.tsx").
  reflexivity.
Defined.

(** ** First calls that begin together *)

Lemma imports_cons_import (l : list event) : imports (EvImport :: l) = S (imports l).
Proof. reflexivity. Qed.

Section RaceFacts.

Context {V K : Type}.
Variable begin : string -> string -> M V (progress K).
Variable resume : K -> M V outcome.

(** [empty v]: the transformer cache is empty.  [parked v0 k]: [k] was
    parked by a call that began on variables [v0].  [after v0 v]: the
    variables [v] are as a resumed call leaves them. *)
Variable empty : V -> Prop.
Variable parked : V -> K -> Prop.
Variable after : V -> V -> Prop.

Hypothesis begin_parks : forall code id s,
  isTsx id = true -> empty (vars s) ->
  exists k, parked (vars s) k /\
    begin code id s =
      (AwaitingImport k, mkSession (vars s) (next_stamp s) (EvImport :: events s)).

Hypothesis resume_completes : forall v0 k s,
  parked v0 k ->
  (vars s = v0 /\ empty v0) \/ after v0 (vars s) ->
  exists out s',
    resume k s = (Output out, s') /\
    imports (events s') = imports (events s) /\
    after v0 (vars s').

Lemma begin_all_parks (calls : list (string * string)) (s : session V) :
  Forall (fun c => isTsx (snd c) = true) calls ->
  empty (vars s) ->
  exists ks s1,
    begin_all begin calls s = (List.map AwaitingImport ks, s1) /\
    Forall (parked (vars s)) ks /\
    List.length ks = List.length calls /\
    vars s1 = vars s /\
    imports (events s1) = List.length calls + imports (events s).
Proof.
  intros Hall. revert s.
  induction Hall as [| [code id] calls Hid _ IH]; intros s Hempty.
  - exists [], s. simpl. unfold ret. repeat split; constructor.
  - simpl in Hid.
    destruct (begin_parks code id s Hid Hempty) as (k & Hk & Hb).
    set (sb := mkSession (vars s) (next_stamp s) (EvImport :: events s)) in *.
    destruct (IH sb Hempty) as (ks & s1 & Hba & Hks & Hlen & Hv & Himp).
    exists (k :: ks), s1.
    simpl. unfold bind at 1. rewrite Hb. unfold bind at 1. rewrite Hba.
    unfold ret. repeat split.
    + constructor; assumption.
    + simpl. now rewrite Hlen.
    + exact Hv.
    + rewrite Himp. subst sb. simpl events. rewrite imports_cons_import.
      simpl. lia.
Qed.

Lemma finish_all_completes (v0 : V) (ks : list K) (s : session V) :
  Forall (parked v0) ks ->
  (vars s = v0 /\ empty v0) \/ after v0 (vars s) ->
  exists os s',
    finish_all resume (List.map AwaitingImport ks) s = (os, s') /\
    Forall (fun o => is_output o = true) os /\
    List.length os = List.length ks /\
    imports (events s') = imports (events s) /\
    (ks <> [] -> after v0 (vars s')).
Proof.
  intros Hall. revert s.
  induction Hall as [| k ks Hk _ IH]; intros s Hs.
  - exists [], s. simpl. unfold ret. repeat split; try constructor. congruence.
  - destruct (resume_completes v0 k s Hk Hs) as (out & sr & Hr & Himp & Haft).
    destruct (IH sr (or_intror Haft)) as (os & s' & Hf & Hout & Hlen & Himp' & Hlast).
    exists (Output out :: os), s'.
    simpl. unfold bind at 1. rewrite Hr. unfold bind at 1. rewrite Hf.
    unfold ret. repeat split.
    + constructor; [reflexivity | assumption].
    + simpl. now rewrite Hlen.
    + congruence.
    + intros _. destruct ks as [| k' ks'].
      * simpl in Hf. unfold ret in Hf. injection Hf as _ <-. exact Haft.
      * apply Hlast. discriminate.
Qed.

Lemma race_imports_once_per_call (calls : list (string * string)) (s : session V) :
  Forall (fun c => isTsx (snd c) = true) calls ->
  empty (vars s) ->
  let r := race begin resume calls in
  imports (events (exec r s)) = List.length calls + imports (events s) /\
  Forall (fun o => is_output o = true) (eval r s) /\
  List.length (eval r s) = List.length calls /\
  (calls <> [] -> after (vars s) (vars (exec r s))).
Proof.
  intros Hall Hempty.
  destruct (begin_all_parks calls s Hall Hempty) as (ks & s1 & Hb & Hks & Hlen & Hv & Himp).
  destruct (finish_all_completes (vars s) ks s1 Hks (or_introl (conj Hv Hempty)))
    as (os & s' & Hf & Hout & Hlen' & Himp' & Hlast).
  cbv [race exec eval]. unfold bind. rewrite Hb, Hf. simpl.
  repeat split.
  - congruence.
  - exact Hout.
  - congruence.
  - intros Hne. apply Hlast. intros ->. destruct calls; [congruence | discriminate].
Qed.

End RaceFacts.

Lemma shared_begin_parks
    (emit : TransformerHandle -> option (list string) -> string -> string -> string)
    (code id : string) (s : session Shared.plugin) :
  isTsx id = true -> Shared.cachedTransformer (vars s) = None ->
  exists k, True /\
    Shared.transform_begin emit code id s =
      (AwaitingImport k, mkSession (vars s) (next_stamp s) (EvImport :: events s)).
Proof.
  intros Hid. destruct s as [[ct cp tf dev] n ev]. simpl. intros ->.
  exists (code, id). split; [exact I |].
  shared_run. now rewrite Hid.
Qed.

Lemma shared_resume_completes
    (emit : TransformerHandle -> option (list string) -> string -> string -> string)
    (v0 : Shared.plugin) (k : string * string) (s : session Shared.plugin) :
  True ->
  (vars s = v0 /\ Shared.cachedTransformer v0 = None) \/
  Shared.cachedTransformer (vars s) = Some TransformerDefault ->
  exists out s',
    Shared.transform_resume emit k s = (Output out, s') /\
    imports (events s') = imports (events s) /\
    Shared.cachedTransformer (vars s') = Some TransformerDefault.
Proof.
  intros _ _. destruct s as [[ct cp tf dev] n ev], k as [code id].
  shared_run. destruct dev; eexists _, _; repeat split.
Qed.

Lemma cached_begin_parks
    (emit : TransformerHandle -> option (list string) -> string -> string -> string)
    (code id : string) (s : session Cached.plugin) :
  isTsx id = true -> Cached.cachedTransformer (vars s) = None ->
  exists k, Cached.pk_shouldCache k = Cached.shouldCache (vars s) /\
    Cached.transform_begin emit code id s =
      (AwaitingImport k, mkSession (vars s) (next_stamp s) (EvImport :: events s)).
Proof.
  intros Hid. destruct s as [[ec ct cp dev] n ev]. simpl. intros ->.
  exists (Cached.mkParked (negb dev || ec) code id). split; [reflexivity |].
  cached_run. rewrite Hid. simpl. destruct (negb dev || ec); reflexivity.
Qed.

Lemma cached_resume_completes
    (emit : TransformerHandle -> option (list string) -> string -> string -> string)
    (v0 : Cached.plugin) (k : Cached.parked) (s : session Cached.plugin) :
  Cached.pk_shouldCache k = Cached.shouldCache v0 ->
  (vars s = v0 /\ Cached.cachedTransformer v0 = None) \/
  Cached.cachedTransformer (vars s) =
    (if Cached.shouldCache v0 then Some TransformerDefault else None) ->
  exists out s',
    Cached.transform_resume emit k s = (Output out, s') /\
    imports (events s') = imports (events s) /\
    Cached.cachedTransformer (vars s') =
      (if Cached.shouldCache v0 then Some TransformerDefault else None).
Proof.
  destruct k as [sc code id]. simpl. intros -> H.
  assert (Hct : Cached.shouldCache v0 = false -> Cached.cachedTransformer (vars s) = None).
  { intros Hsc. destruct H as [[-> H] | H]; [exact H |]. now rewrite Hsc in H. }
  clear H. destruct s as [[ec ct cp dev] n ev]. simpl in Hct.
  destruct (Cached.shouldCache v0).
  - cached_run. destruct cp, dev; eexists _, _; repeat split.
  - rewrite (Hct eq_refl).
    cached_run. destruct dev; eexists _, _; repeat split.
Qed.

(** C9, as the code has it.  There is no shared in-flight import: every
    call that begins while the transformer cache is empty calls [import()]
    itself before it parks.  So [N] eligible calls beginning together make
    [N] imports; each then completes with an output, using the transformer
    of the one module every import resolves to, and the cache is left
    holding it (in [Cached], only when caching is on). *)
Theorem concurrent_first_calls_each_import
    (emit : TransformerHandle -> option (list string) -> string -> string -> string)
    (calls : list (string * string)) :
  Forall (fun c => isTsx (snd c) = true) calls ->
  (forall s : session Shared.plugin,
      Shared.cachedTransformer (vars s) = None ->
      let r := race (Shared.transform_begin emit) (Shared.transform_resume emit) calls in
      imports (effects r s) = List.length calls /\
      Forall (fun o => is_output o = true) (eval r s) /\
      List.length (eval r s) = List.length calls /\
      (calls <> [] ->
       Shared.cachedTransformer (vars (exec r s)) = Some TransformerDefault)) /\
  (forall s : session Cached.plugin,
      Cached.cachedTransformer (vars s) = None ->
      let r := race (Cached.transform_begin emit) (Cached.transform_resume emit) calls in
      imports (effects r s) = List.length calls /\
      Forall (fun o => is_output o = true) (eval r s) /\
      List.length (eval r s) = List.length calls /\
      (calls <> [] ->
       Cached.cachedTransformer (vars (exec r s)) =
         if Cached.shouldCache (vars s) then Some TransformerDefault else None)).
Proof.
  intros Hall. split; intros s Hempty r.
  - pose proof (race_imports_once_per_call
                  (Shared.transform_begin emit) (Shared.transform_resume emit)
                  (fun v => Shared.cachedTransformer v = None)
                  (fun _ _ => True)
                  (fun _ v => Shared.cachedTransformer v = Some TransformerDefault)
                  (shared_begin_parks emit) (shared_resume_completes emit)) as Hrace.
    destruct (Hrace calls s Hall Hempty) as (_ & Hout & Hlen & Hlast).
    destruct (Hrace calls (clear_log s) Hall Hempty) as (Himp & _).
    unfold effects. subst r. rewrite Himp.
    change (imports (events (clear_log s))) with 0.
    repeat split; try assumption. lia.
  - pose proof (race_imports_once_per_call
                  (Cached.transform_begin emit) (Cached.transform_resume emit)
                  (fun v => Cached.cachedTransformer v = None)
                  (fun v0 k => Cached.pk_shouldCache k = Cached.shouldCache v0)
                  (fun v0 v => Cached.cachedTransformer v =
                     if Cached.shouldCache v0 then Some TransformerDefault else None)
                  (cached_begin_parks emit) (cached_resume_completes emit)) as Hrace.
    destruct (Hrace calls s Hall Hempty) as (_ & Hout & Hlen & Hlast).
    destruct (Hrace calls (clear_log s) Hall Hempty) as (Himp & _).
    unfold effects. subst r. rewrite Himp.
    change (imports (events (clear_log s))) with 0.
    repeat split; try assumption. lia.
Qed.

Lemma two_calls_eligible : Forall (fun c => isTsx (snd c) = true) two_calls.
Proof. repeat constructor. Qed.

Lemma concurrent_first_calls_each_import_witness :
  imports (effects (race (Shared.transform_begin emit_typed)
                         (Shared.transform_resume emit_typed) two_calls)
                   shared_ready_session) = 2.
Proof.
  destruct (concurrent_first_calls_each_import emit_typed two_calls two_calls_eligible)
    as [Hs _].
  destruct (Hs shared_ready_session eq_refl) as [Himp _].
  exact Himp.
Defined.

(** C9, as stated, fails: two calls for two files that begin together on
    an empty transformer cache call [import()] twice. *)
Lemma two_first_calls_import_twice :
  ~ single_flight (fun v => Shared.cachedTransformer v = None)
      (Shared.transform_begin emit_typed) (Shared.transform_resume emit_typed).
Proof.
  intros H.
  specialize (H shared_ready_session two_calls).
  assert (Hone : imports (effects (race (Shared.transform_begin emit_typed)
                                        (Shared.transform_resume emit_typed) two_calls)
                                  shared_ready_session) = 1).
  { apply H.
    - discriminate.
    - reflexivity.
    - exact two_calls_eligible.
    - apply (bool_decide_unpack _). vm_compute. exact I. }
  vm_compute in Hone. discriminate.
Qed.

(** ** The string helpers *)

Lemma string_app_cons (c : ascii) (a b : string) : String c a ++ b = String c (a ++ b).
Proof. reflexivity. Qed.

Lemma string_app_nil_l (b : string) : EmptyString ++ b = b.
Proof. reflexivity. Qed.

Lemma string_app_nil_r (a : string) : a ++ EmptyString = a.
Proof.
  induction a as [| c a IH]; [reflexivity |].
  now rewrite string_app_cons, IH.
Qed.

Lemma string_app_assoc (a b c : string) : (a ++ b) ++ c = a ++ (b ++ c).
Proof.
  induction a as [| x a IH]; [reflexivity |].
  now rewrite !string_app_cons, IH.
Qed.

Lemma string_length_app (a b : string) :
  String.length (a ++ b) = String.length a + String.length b.
Proof.
  induction a as [| c a IH]; [reflexivity |].
  rewrite string_app_cons. simpl. now rewrite IH.
Qed.

Lemma substring_whole (s : string) : String.substring 0 (String.length s) s = s.
Proof. induction s as [| c s IH]; simpl; [reflexivity | now rewrite IH]. Qed.

Lemma substring_after_prefix (p suffix : string) :
  String.substring (String.length p) (String.length suffix) (p ++ suffix) = suffix.
Proof.
  induction p as [| c p IH]; [apply substring_whole |].
  rewrite string_app_cons. simpl. exact IH.
Qed.

Lemma substring_split (s : string) (k : nat) :
  k <= String.length s ->
  s = String.substring 0 k s ++ String.substring k (String.length s - k) s.
Proof.
  revert k. induction s as [| c s IH]; intros k Hk; simpl in *.
  - destruct k; [reflexivity | lia].
  - destruct k as [| k]; simpl.
    + rewrite string_app_nil_l. now rewrite substring_whole.
    + rewrite string_app_cons. f_equal. apply IH. lia.
Qed.

(** X1.  [endsWith] holds exactly of the strings that are some prefix
    followed by the suffix; so a file is eligible exactly when its identity
    is some string followed by [.tsx] (the bare [.tsx] included). *)
Theorem endsWith_iff_suffix (s suffix : string) :
  (Js.endsWith s suffix = true <-> exists p, s = p ++ suffix) /\
  (isTsx s = true <-> exists p, s = p ++ ".tsx").
Proof.
  assert (Hgen : forall t, Js.endsWith s t = true <-> exists p, s = p ++ t).
  { intros t. unfold Js.endsWith. split.
    - intros H. apply andb_true_iff in H as [Hle Heq].
      apply Nat.leb_le in Hle. apply String.eqb_eq in Heq.
      exists (String.substring 0 (String.length s - String.length t) s).
      assert (Hk : String.length s - String.length t <= String.length s) by lia.
      pose proof (substring_split s _ Hk) as Hs.
      replace (String.length s - (String.length s - String.length t))
        with (String.length t) in Hs by lia.
      now rewrite Heq in Hs.
    - intros [p ->]. rewrite string_length_app.
      apply andb_true_iff. split; [apply Nat.leb_le; lia |].
      replace (String.length p + String.length t - String.length t)
        with (String.length p) by lia.
      rewrite substring_after_prefix. apply String.eqb_refl. }
  split; [apply Hgen | apply (Hgen ".tsx")].
Qed.

Lemma has_slash_app (a b : string) : has_slash (a ++ b) = has_slash a || has_slash b.
Proof.
  induction a as [| c a IH]; [reflexivity |].
  rewrite string_app_cons. simpl. rewrite IH. now rewrite orb_assoc.
Qed.

Lemma split_pop_from_no_slash (cur s : string) :
  has_slash s = false -> Js.split_pop_from cur s = cur ++ s.
Proof.
  revert cur. induction s as [| c s IH]; intros cur Hs; simpl in *.
  - now rewrite string_app_nil_r.
  - apply orb_false_iff in Hs as [Hc Hs]. rewrite Hc.
    rewrite (IH _ Hs). now rewrite string_app_assoc.
Qed.

Lemma split_pop_from_after_slash (cur dir name : string) :
  Js.split_pop_from cur (dir ++ String "/"%char name) = Js.split_pop_from EmptyString name.
Proof.
  revert cur. induction dir as [| c dir IH]; intros cur.
  - reflexivity.
  - rewrite string_app_cons. simpl. destruct (Ascii.eqb c "/"%char); apply IH.
Qed.

Lemma split_pop_from_has_no_slash (cur s : string) :
  has_slash cur = false -> has_slash (Js.split_pop_from cur s) = false.
Proof.
  revert cur. induction s as [| c s IH]; intros cur Hcur; simpl.
  - exact Hcur.
  - destruct (Ascii.eqb c "/"%char) eqn:Hc.
    + now apply IH.
    + apply IH. rewrite has_slash_app. simpl. now rewrite Hcur, Hc.
Qed.

(** X2.  The file name in the log line is the part of the identity after
    its last ['/']: an identity without ['/'] is logged whole, and
    [dir/name] is logged as [name] when [name] has no ['/'] (so an identity
    ending in ['/'] is logged as the empty string).  The logged name never
    contains ['/']. *)
Theorem split_pop_is_last_segment (dir name : string) :
  has_slash name = false ->
  Js.split_pop name = name /\
  Js.split_pop (dir ++ String "/"%char name) = name /\
  (forall s, has_slash (Js.split_pop s) = false).
Proof.
  intros Hname. unfold Js.split_pop. repeat split.
  - now rewrite split_pop_from_no_slash.
  - rewrite split_pop_from_after_slash. now rewrite split_pop_from_no_slash.
  - intros s. now apply split_pop_from_has_no_slash.
Qed.

Lemma split_pop_is_last_segment_witness :
  Js.split_pop "App.tsx" = "App.tsx" /\
  Js.split_pop ("/src/components" ++ String "/"%char "App.tsx") = "App.tsx" /\
  (forall s, has_slash (Js.split_pop s) = false).
Proof.
  apply (split_pop_is_last_segment "/src/components" "App.tsx"). reflexivity.
Defined.

(** ** What a whole session creates and imports *)

Lemma fold_left_invariant {S C : Type} (step : C -> S -> S) (P : S -> Prop) :
  (forall c s, P s -> P (step c s)) ->
  forall cs s, P s -> P (fold_left (fun s c => step c s) cs s).
Proof.
  intros Hstep cs. induction cs as [| c cs IH]; intros s Hs; simpl; [exact Hs |].
  apply IH. now apply Hstep.
Qed.

Ltac log_counts := cbv [imports creations log_lines]; simpl.

Lemma shared_step_creation_inv
    (emit : TransformerHandle -> option (list string) -> string -> string -> string)
    (c : call) (s : session Shared.plugin) :
  shared_creation_inv s -> shared_creation_inv (SharedHost.step emit c s).
Proof.
  destruct s as [[ct cp tf dev] n ev]. unfold shared_creation_inv. simpl.
  intros [Hn Hin].
  destruct c as [cmd | | code id | file modules]; cbv [SharedHost.step]; shared_run.
  - auto.
  - destruct cp as [p |]; [auto |]. log_counts.
    split; [now f_equal |].
    intros p [[= <-] | Hp]; [reflexivity |]. now apply Hin in Hp.
  - destruct (isTsx id); simpl; [| auto].
    destruct ct, dev; log_counts; (split; [exact Hn |]);
      intros p Hp; repeat (destruct Hp as [Hp | Hp]; [discriminate |]); auto.
  - destruct (isTsx file); simpl; [| auto].
    destruct (List.find _ modules); log_counts; (split; [exact Hn |]);
      intros p Hp; repeat (destruct Hp as [Hp | Hp]; [discriminate |]); auto.
Qed.

(** X3.  In a [Shared] session, whatever hooks are called and in whatever
    order, at most one [ts.Program] is ever created: the one [buildStart]
    creates from an empty list of root files, which is the one in the
    cache.  No [transform] and no change notification creates a program. *)
Theorem shared_program_created_once
    (emit : TransformerHandle -> option (list string) -> string -> string -> string)
    (cs : list call) :
  let s := SharedHost.run emit cs in
  creations (events s) <= 1 /\
  (forall p, In (EvCreateProgram p) (events s) ->
             Shared.cachedProgram (vars s) = Some p /\ ph_roots p = []) /\
  (forall code id, creations (effects (Shared.transform emit code id) s) = 0) /\
  (forall file modules, creations (effects (Shared.handleHotUpdate file modules) s) = 0).
Proof.
  intros s.
  assert (Hinv : shared_creation_inv s).
  { apply (fold_left_invariant (SharedHost.step emit) shared_creation_inv).
    - apply shared_step_creation_inv.
    - split; [reflexivity | intros p []]. }
  pose proof (shared_run_program_ok emit cs) as Hok. fold s in Hok.
  destruct Hinv as [Hn Hin]. split; [| split; [| split]].
  - rewrite Hn. destruct (Shared.cachedProgram (vars s)); lia.
  - intros p Hp. apply Hin in Hp. split; [exact Hp |].
    unfold SharedHost.program_ok in Hok. rewrite Hp in Hok. apply Hok.
  - intros code id. clear Hn Hin Hok.
    destruct s as [[ct cp tf dev] n ev]. shared_run.
    destruct (isTsx id); simpl; [| reflexivity].
    destruct ct, dev; reflexivity.
  - intros file modules. clear Hn Hin Hok.
    destruct s as [[ct cp tf dev] n ev]. shared_run.
    destruct (isTsx file); simpl; [| reflexivity].
    destruct (List.find _ modules); reflexivity.
Qed.

Section ImportOnce.

Context {V : Type}.
Variable step : call -> session V -> session V.
Variable transformerCache : V -> option TransformerHandle.
Variable stable : session V -> Prop.

Hypothesis step_imports : forall c s,
  stable s ->
  stable (step c s) /\
  imports (events (step c s)) =
    imports (events s) +
    (if is_tsx_transform c
     then match transformerCache (vars s) with None => 1 | Some _ => 0 end
     else 0) /\
  transformerCache (vars (step c s)) =
    (if is_tsx_transform c then Some TransformerDefault else transformerCache (vars s)).

Lemma run_imports_once (cs : list call) (s : session V) :
  stable s ->
  imports (events (fold_left (fun s c => step c s) cs s)) =
    imports (events s) +
    match transformerCache (vars s), first_tsx cs with
    | None, Some _ => 1
    | _, _ => 0
    end.
Proof.
  revert s. induction cs as [| c cs IH]; intros s Hs; simpl.
  - destruct (transformerCache (vars s)); lia.
  - destruct (step_imports c s Hs) as (Hs' & Himp & Hct).
    rewrite (IH _ Hs'), Himp, Hct.
    destruct c as [cmd | | code id | file modules]; simpl;
      try (destruct (transformerCache (vars s)), (first_tsx cs); lia).
    destruct (isTsx id); destruct (transformerCache (vars s)), (first_tsx cs); lia.
Qed.

End ImportOnce.

Lemma shared_step_imports
    (emit : TransformerHandle -> option (list string) -> string -> string -> string)
    (c : call) (s : session Shared.plugin) :
  True ->
  True /\
  imports (events (SharedHost.step emit c s)) =
    imports (events s) +
    (if is_tsx_transform c
     then match Shared.cachedTransformer (vars s) with None => 1 | Some _ => 0 end
     else 0) /\
  Shared.cachedTransformer (vars (SharedHost.step emit c s)) =
    (if is_tsx_transform c then Some TransformerDefault
     else Shared.cachedTransformer (vars s)).
Proof.
  intros _. split; [exact I |].
  destruct s as [[ct cp tf dev] n ev].
  destruct c as [cmd | | code id | file modules];
    cbv [SharedHost.step is_tsx_transform]; shared_run.
  - split; [lia | reflexivity].
  - destruct cp; log_counts; split; (lia || reflexivity).
  - destruct (isTsx id); simpl; [| split; [lia | reflexivity]].
    destruct ct as [[] |], dev; log_counts; split; (lia || reflexivity).
  - destruct (isTsx file); simpl; [| split; [lia | reflexivity]].
    destruct (List.find _ modules); log_counts; split; (lia || reflexivity).
Qed.

Lemma temp_step_imports
    (emit : TransformerHandle -> option (list string) -> string -> string -> string)
    (c : call) (s : session Temp.plugin) :
  True ->
  True /\
  imports (events (TempHost.step emit c s)) =
    imports (events s) +
    (if is_tsx_transform c
     then match Temp.cachedTransformer (vars s) with None => 1 | Some _ => 0 end
     else 0) /\
  Temp.cachedTransformer (vars (TempHost.step emit c s)) =
    (if is_tsx_transform c then Some TransformerDefault
     else Temp.cachedTransformer (vars s)).
Proof.
  intros _. split; [exact I |].
  destruct s as [[ct cp] n ev].
  destruct c as [cmd | | code id | file modules];
    cbv [TempHost.step is_tsx_transform]; try (split; [lia | reflexivity]).
  temp_run. destruct (isTsx id); simpl; [| split; [lia | reflexivity]].
  destruct ct as [[] |], cp; log_counts; split; (lia || reflexivity).
Qed.

Lemma cached_step_imports
    (emit : TransformerHandle -> option (list string) -> string -> string -> string)
    (c : call) (s : session Cached.plugin) :
  Cached.enableCache (vars s) = true ->
  Cached.enableCache (vars (CachedHost.step emit c s)) = true /\
  imports (events (CachedHost.step emit c s)) =
    imports (events s) +
    (if is_tsx_transform c
     then match Cached.cachedTransformer (vars s) with None => 1 | Some _ => 0 end
     else 0) /\
  Cached.cachedTransformer (vars (CachedHost.step emit c s)) =
    (if is_tsx_transform c then Some TransformerDefault
     else Cached.cachedTransformer (vars s)).
Proof.
  destruct s as [[ec ct cp dev] n ev]. simpl. intros ->.
  destruct c as [cmd | | code id | file modules];
    cbv [CachedHost.step is_tsx_transform]; cached_run.
  - destruct cmd; simpl; repeat split; lia.
  - repeat split; lia.
  - destruct (isTsx id); simpl; [| repeat split; lia].
    destruct dev, ct as [[] |], cp; log_counts; repeat split; lia.
  - destruct (isTsx file); simpl; [| repeat split; lia].
    destruct (List.find _ modules); log_counts; repeat split; lia.
Qed.

(** X4.  In a session whose calls run one after the other, the transformer
    module is imported once, by the first [transform] of a [.tsx] file, and
    never again: in [Shared], in [Temp], and in [Cached] when the plugin was
    created with [enableCache: true]. *)
Theorem transformer_imported_once
    (emit : TransformerHandle -> option (list string) -> string -> string -> string)
    (cs : list call) :
  let once := match first_tsx cs with Some _ => 1 | None => 0 end in
  imports (events (SharedHost.run emit cs)) = once /\
  imports (events (TempHost.run emit cs)) = once /\
  imports (events (CachedHost.run_from emit
                     (Cached.start (Cached.mkOptions (Some true))) cs)) = once.
Proof.
  intros once. split; [| split].
  - apply (run_imports_once (SharedHost.step emit) Shared.cachedTransformer
             (fun _ => True) (shared_step_imports emit) cs Shared.start I).
  - apply (run_imports_once (TempHost.step emit) Temp.cachedTransformer
             (fun _ => True) (temp_step_imports emit) cs Temp.start I).
  - apply (run_imports_once (CachedHost.step emit) Cached.cachedTransformer
             (fun s => Cached.enableCache (vars s) = true)
             (cached_step_imports emit) cs
             (Cached.start (Cached.mkOptions (Some true))) eq_refl).
Qed.

(** ** What a transform resolves to *)

Lemma shared_transform_result
    (emit : TransformerHandle -> option (list string) -> string -> string -> string)
    (code id : string) (s : session Shared.plugin) :
  isTsx id = true ->
  eval (Shared.transform emit code id) s =
    Output (emit TransformerDefault (ph_roots <$> Shared.cachedProgram (vars s)) id code).
Proof.
  intros Hid. destruct s as [[ct cp tf dev] n ev].
  shared_run. rewrite Hid. simpl.
  destruct ct as [[] |], dev; reflexivity.
Qed.

Lemma temp_transform_result
    (emit : TransformerHandle -> option (list string) -> string -> string -> string)
    (code id : string) (s : session Temp.plugin) :
  isTsx id = true ->
  eval (Temp.transform emit code id) s =
    Output (emit TransformerDefault
              (Some (match Temp.cachedProgram (vars s) with
                     | Some p => ph_roots p
                     | None => [id]
                     end))
              id code).
Proof.
  intros Hid. destruct s as [[ct cp] n ev].
  temp_run. rewrite Hid. simpl.
  destruct ct as [[] |], cp; reflexivity.
Qed.



(** X6.  In a [Shared] session in which [buildStart] has run, the result
    of transforming a [.tsx] file depends on its [id] and [code] alone: it
    is the text printed over a program without root files, whatever was
    transformed, configured or reported changed before. *)
Theorem shared_result_ignores_history
    (emit : TransformerHandle -> option (list string) -> string -> string -> string)
    (cs1 cs2 : list call) (code id : string) :
  isTsx id = true ->
  eval (Shared.transform emit code id)
       (SharedHost.run emit (cs1 ++ BuildStart :: cs2)%list)
  = Output (emit TransformerDefault (Some []) id code).
Proof.
  intros Hid. rewrite (shared_transform_result emit code id _ Hid).
  destruct (shared_program_after_buildStart emit cs1 cs2) as [p Hp].
  pose proof (shared_run_program_ok emit (cs1 ++ BuildStart :: cs2)%list) as Hok.
  unfold SharedHost.program_ok in Hok. rewrite Hp in Hok. destruct Hok as [Hroots _].
  rewrite Hp. simpl. now rewrite Hroots.
Qed.

Lemma shared_result_ignores_history_witness :
  eval (Shared.transform emit_typed "<a2/>" "/src/a.tsx")
       (SharedHost.run emit_typed
          ([ConfigResolved serve] ++ BuildStart ::
           [Transform "<a/>" "/src/a.tsx"; HandleHotUpdate "/src/a.tsx" []])%list)
  = Output (emit_typed TransformerDefault (Some []) "/src/a.tsx" "<a2/>").
Proof.
  apply (shared_result_ignores_history emit_typed [ConfigResolved serve]
           [Transform "<a/>" "/src/a.tsx"; HandleHotUpdate "/src/a.tsx" []]
           "<a2/>" "/src/a.tsx").
  reflexivity.
Defined.

(** ** The set of transformed files *)

Lemma shared_step_keeps_seen
    (emit : TransformerHandle -> option (list string) -> string -> string -> string)
    (id : string) (c : call) (s : session Shared.plugin) :
  is_hot_update_of id c = false ->
  id ∈ Shared.transformedFiles (vars s) ->
  id ∈ Shared.transformedFiles (vars (SharedHost.step emit c s)).
Proof.
  destruct s as [[ct cp tf dev] n ev]. simpl.
  destruct c as [cmd | | code id' | file modules];
    cbv [SharedHost.step is_hot_update_of]; intros Hc Hin; shared_run.
  - exact Hin.
  - destruct cp; exact Hin.
  - assert (Hadd : id ∈ ({[id']} : gset string) ∪ tf).
    { apply elem_of_union. now right. }
    destruct (isTsx id'); simpl; [| exact Hin].
    destruct ct, dev; simpl; assumption.
  - apply String.eqb_neq in Hc.
    assert (Hdel : id ∈ tf ∖ {[file]}).
    { apply elem_of_difference. split; [exact Hin |].
      rewrite elem_of_singleton. congruence. }
    destruct (isTsx file); simpl; [| exact Hin].
    destruct (List.find _ modules); simpl; exact Hdel.
Qed.

Lemma shared_status_when_seen
    (emit : TransformerHandle -> option (list string) -> string -> string -> string)
    (code id : string) (s : session Shared.plugin) :
  isTsx id = true ->
  id ∈ Shared.transformedFiles (vars s) ->
  reported (effects (Shared.transform emit code id) s) =
    if Shared.isDevMode (vars s) then Some cached else None.
Proof.
  intros Hid. destruct s as [[ct cp tf dev] n ev]. simpl. intros Hin.
  shared_run. rewrite Hid. simpl.
  destruct ct, dev; simpl; rewrite ?bool_decide_eq_true_2 by exact Hin; reflexivity.
Qed.

(** X7.  Once a [.tsx] file has been transformed in development mode it
    stays in [transformedFiles] until a change notification for that very
    file arrives: whatever other hooks are called in between, and whether or
    not the code passed is the same, a later transform of it never reports
    [fresh], and reports [cached] when the mode is still development. *)
Theorem cached_status_until_change
    (emit : TransformerHandle -> option (list string) -> string -> string -> string)
    (s : session Shared.plugin) (id : string) (cs : list call) (code code' : string) :
  isTsx id = true ->
  Shared.isDevMode (vars s) = true ->
  Forall (fun c => is_hot_update_of id c = false) cs ->
  let s2 := SharedHost.run_from emit (exec (Shared.transform emit code id) s) cs in
  let st := reported (effects (Shared.transform emit code' id) s2) in
  id ∈ Shared.transformedFiles (vars s2) /\
  st <> Some fresh /\
  (Shared.isDevMode (vars s2) = true -> st = Some cached).
Proof.
  intros Hid Hdev Hcs s2 st.
  assert (H1 : id ∈ Shared.transformedFiles (vars (exec (Shared.transform emit code id) s))).
  { destruct s as [[ct cp tf dev] n ev]. simpl in Hdev. subst dev.
    shared_run. rewrite Hid. simpl.
    assert (Hadd : id ∈ ({[id]} : gset string) ∪ tf).
    { apply elem_of_union. left. now apply elem_of_singleton. }
    destruct ct; exact Hadd. }
  assert (Hin : id ∈ Shared.transformedFiles (vars s2)).
  { subst s2. unfold SharedHost.run_from.
    revert H1. generalize (exec (Shared.transform emit code id) s).
    induction Hcs as [| c cs Hc _ IH]; intros s1 H1; simpl; [exact H1 |].
    apply IH. now apply shared_step_keeps_seen. }
  split; [exact Hin |].
  subst st. rewrite (shared_status_when_seen emit code' id s2 Hid Hin).
  destruct (Shared.isDevMode (vars s2)); split; congruence.
Qed.

Lemma cached_status_until_change_witness :
  reported (effects (Shared.transform emit_typed "<a-edited/>" "/src/a.tsx")
              (SharedHost.run_from emit_typed
                 (exec (Shared.transform emit_typed "<a/>" "/src/a.tsx") shared_ready_session)
                 [Transform "<b/>" "/src/b.tsx"; HandleHotUpdate "/src/b.tsx" []]))
  = Some cached.
Proof.
  apply (cached_status_until_change emit_typed shared_ready_session "/src/a.tsx"
           [Transform "<b/>" "/src/b.tsx"; HandleHotUpdate "/src/b.tsx" []]
           "<a/>" "<a-edited/>").
  - reflexivity.
  - reflexivity.
  - repeat constructor.
  - vm_compute. reflexivity.
Defined.

Lemma shared_step_seen_origin
    (emit : TransformerHandle -> option (list string) -> string -> string -> string)
    (x : string) (c : call) (s : session Shared.plugin) :
  x ∈ Shared.transformedFiles (vars (SharedHost.step emit c s)) ->
  x ∈ Shared.transformedFiles (vars s) \/
  (isTsx x = true /\ Shared.isDevMode (vars s) = true /\ exists code, c = Transform code x).
Proof.
  destruct s as [[ct cp tf dev] n ev]. simpl.
  destruct c as [cmd | | code id | file modules]; cbv [SharedHost.step]; shared_run.
  - auto.
  - destruct cp; auto.
  - destruct (isTsx id) eqn:Hid; simpl; [| auto].
    destruct ct, dev; simpl; auto;
      intros Hx; apply elem_of_union in Hx as [Hx | Hx]; auto;
      apply elem_of_singleton in Hx; subst x; right; eauto.
  - destruct (isTsx file); simpl; [| auto].
    destruct (List.find _ modules); simpl;
      intros Hx; apply elem_of_difference in Hx as [Hx _]; auto.
Qed.

(** X8.  [transformedFiles] only ever holds identities of [.tsx] files
    that a [transform] call of the session was made for: no hook puts
    anything else into it. *)
Theorem transformedFiles_only_transformed_tsx
    (emit : TransformerHandle -> option (list string) -> string -> string -> string)
    (cs : list call) (x : string) :
  x ∈ Shared.transformedFiles (vars (SharedHost.run emit cs)) ->
  isTsx x = true /\ exists code, In (Transform code x) cs.
Proof.
  unfold SharedHost.run, SharedHost.run_from.
  assert (Hgen : forall cs s,
    x ∈ Shared.transformedFiles (vars (fold_left (fun s c => SharedHost.step emit c s) cs s)) ->
    x ∈ Shared.transformedFiles (vars s) \/
    (isTsx x = true /\ exists code, In (Transform code x) cs)).
  { clear cs. intros cs. induction cs as [| c cs IH]; intros s Hx; simpl in *; [auto |].
    destruct (IH _ Hx) as [H1 | (Ht & code & Hin)].
    - destruct (shared_step_seen_origin emit x c s H1) as [H0 | (Ht & _ & code & ->)];
        [auto | right; eauto].
    - right. eauto. }
  intros Hx. destruct (Hgen cs Shared.start Hx) as [H0 | H]; [| exact H].
  simpl in H0. now apply not_elem_of_empty in H0.
Qed.

Lemma transformedFiles_only_transformed_tsx_witness :
  isTsx "/src/a.tsx" = true /\
  exists code, In (Transform code "/src/a.tsx") shared_dev_calls.
Proof.
  apply (transformedFiles_only_transformed_tsx emit_typed shared_dev_calls "/src/a.tsx").
  apply (bool_decide_unpack _). vm_compute. exact I.
Defined.

(** ** What a change notification answers and invalidates *)

(** The module a notification for [file] invalidates, if any. *)
Lemma shared_hot_effects (file : string) (modules : list ModuleNode)
    (s : session Shared.plugin) :
  eval (Shared.handleHotUpdate file modules) s = (if isTsx file then Some modules else None) /\
  effects (Shared.handleHotUpdate file modules) s =
    match (if isTsx file
           then List.find (fun m => bool_decide (mn_file m = Some file)) modules
           else None) with
    | Some m => [EvInvalidateModule m]
    | None => []
    end.
Proof.
  destruct s as [[ct cp tf dev] n ev]. shared_run.
  destruct (isTsx file); simpl; [| done].
  destruct (List.find _ modules); done.
Qed.

Lemma cached_hot_effects (file : string) (modules : list ModuleNode)
    (s : session Cached.plugin) :
  eval (Cached.handleHotUpdate file modules) s = (if isTsx file then Some modules else None) /\
  effects (Cached.handleHotUpdate file modules) s =
    match (if isTsx file
           then List.find (fun m => bool_decide (mn_file m = Some file)) modules
           else None) with
    | Some m => [EvInvalidateModule m]
    | None => []
    end.
Proof.
  destruct s as [[ec ct cp dev] n ev]. cached_run.
  destruct (isTsx file); simpl; [| done].
  destruct (List.find _ modules); done.
Qed.

Lemma invalidation_facts (file : string) (modules : list ModuleNode) (fx : list event) :
  fx = match (if isTsx file
              then List.find (fun m => bool_decide (mn_file m = Some file)) modules
              else None) with
       | Some m => [EvInvalidateModule m]
       | None => []
       end ->
  List.length fx <= 1 /\
  (forall e, In e fx ->
     exists m, e = EvInvalidateModule m /\ In m modules /\ mn_file m = Some file /\
               isTsx file = true) /\
  (isTsx file = true -> (exists m, In m modules /\ mn_file m = Some file) -> fx <> []).
Proof.
  intros ->. destruct (isTsx file); simpl.
  - destruct (List.find _ modules) as [m |] eqn:Hfind; simpl.
    + apply find_some in Hfind as [Hin Hm]. apply bool_decide_eq_true in Hm.
      split; [lia |]. split; [| discriminate].
      intros e [<- | []]. eauto.
    + split; [lia |]. split; [intros e [] |].
      intros _ (m & Hin & Hm). apply (find_none _ _ Hfind) in Hin.
      apply bool_decide_eq_false in Hin. contradiction.
  - split; [lia |]. split; [intros e [] | discriminate].
Qed.

(** X9.  [handleHotUpdate] answers with the very module list it was given
    when the changed file is [.tsx], and with [undefined] otherwise.  Its
    only effect outside the plugin is at most one [invalidateModule], always
    of a module from that list whose [file] is the changed [.tsx] file; it
    does invalidate one whenever the list has such a module, and does
    nothing when it has none. *)
Theorem handleHotUpdate_answer (file : string) (modules : list ModuleNode) :
  (forall s : session Shared.plugin,
      let fx := effects (Shared.handleHotUpdate file modules) s in
      eval (Shared.handleHotUpdate file modules) s
        = (if isTsx file then Some modules else None) /\
      List.length fx <= 1 /\
      (forall e, In e fx ->
         exists m, e = EvInvalidateModule m /\ In m modules /\ mn_file m = Some file /\
                   isTsx file = true) /\
      (isTsx file = true -> (exists m, In m modules /\ mn_file m = Some file) -> fx <> [])) /\
  (forall s : session Cached.plugin,
      let fx := effects (Cached.handleHotUpdate file modules) s in
      eval (Cached.handleHotUpdate file modules) s
        = (if isTsx file then Some modules else None) /\
      List.length fx <= 1 /\
      (forall e, In e fx ->
         exists m, e = EvInvalidateModule m /\ In m modules /\ mn_file m = Some file /\
                   isTsx file = true) /\
      (isTsx file = true -> (exists m, In m modules /\ mn_file m = Some file) -> fx <> [])).
Proof.
  split; intros s fx.
  - destruct (shared_hot_effects file modules s) as [Hev Hfx].
    split; [exact Hev |]. now apply invalidation_facts.
  - destruct (cached_hot_effects file modules s) as [Hev Hfx].
    split; [exact Hev |]. now apply invalidation_facts.
Qed.

(** X10.  A change notification delivered twice in a row leaves the
    plugin's variables as a single one does, in both variants that have the
    hook. *)
Theorem handleHotUpdate_idempotent (file : string) (modules modules' : list ModuleNode) :
  (forall s : session Shared.plugin,
      vars (exec (Shared.handleHotUpdate file modules')
                 (exec (Shared.handleHotUpdate file modules) s))
      = vars (exec (Shared.handleHotUpdate file modules) s)) /\
  (forall s : session Cached.plugin,
      vars (exec (Cached.handleHotUpdate file modules')
                 (exec (Cached.handleHotUpdate file modules) s))
      = vars (exec (Cached.handleHotUpdate file modules) s)).
Proof.
  split; intros s.
  - destruct s as [[ct cp tf dev] n ev]. shared_run.
    destruct (isTsx file); simpl; [| reflexivity].
    destruct (List.find _ modules); simpl;
      destruct (List.find _ modules'); simpl; now rewrite difference_twice_L.
  - destruct s as [[ec ct cp dev] n ev]. cached_run.
    destruct (isTsx file); simpl; [| reflexivity].
    destruct (List.find _ modules); simpl;
      destruct (List.find _ modules'); reflexivity.
Qed.

(** ** Cache hits and misses in [Cached] *)

(** X11.  With caching on, one transform of a [.tsx] file fills both
    caches, and the next transform of any [.tsx] file is a pure cache hit:
    it imports nothing, creates no program, is handed the very program the
    first one was handed, and writes no variable of the plugin. *)
Theorem cached_second_transform_hits
    (emit : TransformerHandle -> option (list string) -> string -> string -> string)
    (s : session Cached.plugin) (c1 id1 c2 id2 : string) :
  isTsx id1 = true -> isTsx id2 = true ->
  Cached.shouldCache (vars s) = true ->
  let s1 := exec (Cached.transform emit c1 id1) s in
  let fx := effects (Cached.transform emit c2 id2) s1 in
  Cached.cachedTransformer (vars s1) = Some TransformerDefault /\
  is_Some (Cached.cachedProgram (vars s1)) /\
  imports fx = 0 /\
  creations fx = 0 /\
  program_passed fx = program_passed (effects (Cached.transform emit c1 id1) s) /\
  vars (exec (Cached.transform emit c2 id2) s1) = vars s1.
Proof.
  intros H1 H2. destruct s as [[ec ct cp dev] n ev]. simpl. intros Hsc.
  cached_run. rewrite H1. simpl.
  destruct dev, ec, ct as [[] |], cp; simpl in *; try discriminate;
    rewrite H2; simpl; repeat split; by eexists.
Qed.

Lemma cached_second_transform_hits_witness :
  imports (effects (Cached.transform emit_typed "<b/>" "/src/b.tsx") cached_dev_session) = 0 /\
  creations (effects (Cached.transform emit_typed "<b/>" "/src/b.tsx") cached_dev_session) = 0.
Proof.
  destruct (cached_second_transform_hits emit_typed
              (exec (Cached.configResolved serve) (Cached.start (Cached.mkOptions (Some true))))
              "<a/>" "/src/a.tsx" "<b/>" "/src/b.tsx" eq_refl eq_refl eq_refl)
    as (_ & _ & Hi & Hc & _).
  split; [exact Hi | exact Hc].
Defined.

(** X12.  With caching off (development mode without [enableCache]), every
    transform of a [.tsx] file does all the work again and in this order:
    it imports the transformer, creates a program from its own [id], runs
    the transform step over that program, and prints a line tagged
    [fresh]. *)
Theorem uncached_transform_trace
    (emit : TransformerHandle -> option (list string) -> string -> string -> string)
    (s : session Cached.plugin) (code id : string) :
  isTsx id = true ->
  Cached.shouldCache (vars s) = false ->
  let p := mkProgram (next_stamp s) [id] in
  effects (Cached.transform emit code id) s =
    [EvLog (Js.split_pop id) (Some fresh);
     EvTransform TransformerDefault (Some p) id code;
     EvCreateProgram p;
     EvImport].
Proof.
  intros Hid. destruct s as [[ec ct cp dev] n ev]. simpl. intros Hsc.
  assert (dev = true /\ ec = false) as [-> ->] by (destruct dev, ec; auto).
  cached_run. rewrite Hid. reflexivity.
Qed.

Lemma uncached_transform_trace_witness :
  effects (Cached.transform emit_typed "<a/>" "/src/a.tsx") cached_nocache_session =
    [EvLog "a.tsx" (Some fresh);
     EvTransform TransformerDefault (Some (mkProgram 0 ["/src/a.tsx"])) "/src/a.tsx" "<a/>";
     EvCreateProgram (mkProgram 0 ["/src/a.tsx"]);
     EvImport].
Proof.
  apply (uncached_transform_trace emit_typed cached_nocache_session "<a/>" "/src/a.tsx");
    reflexivity.
Defined.

(** ** The program of [Temp] *)

Lemma temp_run_program
    (emit : TransformerHandle -> option (list string) -> string -> string -> string)
    (cs : list call) (s : session Temp.plugin) :
  let s' := TempHost.run_from emit s cs in
  Temp.cachedProgram (vars s') =
    match Temp.cachedProgram (vars s) with
    | Some p => Some p
    | None => (fun id => mkProgram (next_stamp s) [id]) <$> first_tsx cs
    end /\
  creations (events s') =
    creations (events s) +
    match Temp.cachedProgram (vars s), first_tsx cs with
    | None, Some _ => 1
    | _, _ => 0
    end.
Proof.
  unfold TempHost.run_from. revert s.
  induction cs as [| c cs IH]; intros s; simpl.
  - destruct (Temp.cachedProgram (vars s)); split; (reflexivity || lia).
  - destruct c as [cmd | | code id | file modules]; simpl; try apply IH.
    destruct (isTsx id) eqn:Hid.
    + destruct (IH (exec (Temp.transform emit code id) s)) as [Hp Hc].
      rewrite Hp, Hc. clear IH Hp Hc.
      destruct s as [[ct cp] n ev]. temp_run. rewrite Hid. simpl.
      destruct ct, cp; log_counts; split; (reflexivity || lia).
    + replace (exec (Temp.transform emit code id) s) with s; [apply IH |].
      destruct s as [[ct cp] n ev]. temp_run. now rewrite Hid.
Qed.

(** X13.  In [Temp] the one program of the session is created from the
    first [.tsx] file transformed, and every later [.tsx] file, whichever
    it is, is transformed over that program: after calls whose first
    [.tsx] transform was for [id0], a transform of [id] resolves to the
    text printed over the program of [id0]. *)
Theorem temp_program_is_first_files
    (emit : TransformerHandle -> option (list string) -> string -> string -> string)
    (cs : list call) :
  let s := TempHost.run emit cs in
  Temp.cachedProgram (vars s) = (fun id => mkProgram 0 [id]) <$> first_tsx cs /\
  creations (events s) = match first_tsx cs with Some _ => 1 | None => 0 end /\
  (forall id0 code id,
      first_tsx cs = Some id0 -> isTsx id = true ->
      eval (Temp.transform emit code id) s = Output (emit TransformerDefault (Some [id0]) id code)).
Proof.
  intros s. destruct (temp_run_program emit cs Temp.start) as [Hp Hc].
  fold (TempHost.run emit cs) in Hp, Hc. fold s in Hp, Hc. simpl in Hp, Hc.
  split; [exact Hp |]. split; [exact Hc |].
  intros id0 code id H0 Hid.
  rewrite (temp_transform_result emit code id s Hid), Hp, H0. reflexivity.
Qed.

Lemma temp_program_is_first_files_witness :
  eval (Temp.transform emit_typed "<b/>" "/src/b.tsx")
       (TempHost.run emit_typed [Transform "x" "/src/main.ts"; Transform "<a/>" "/src/a.tsx"])
  = Output (emit_typed TransformerDefault (Some ["/src/a.tsx"]) "/src/b.tsx" "<b/>").
Proof.
  destruct (temp_program_is_first_files emit_typed
              [Transform "x" "/src/main.ts"; Transform "<a/>" "/src/a.tsx"])
    as (_ & _ & H).
  apply (H "/src/a.tsx" "<b/>" "/src/b.tsx"); reflexivity.
Defined.

(** ** Overlapping calls against calls in sequence *)

Lemma shared_transform_spec
    (emit : TransformerHandle -> option (list string) -> string -> string -> string)
    (code id : string) (s : session Shared.plugin) :
  eval (Shared.transform emit code id) s
    = shared_outcome emit (Shared.cachedProgram (vars s)) (code, id) /\
  Shared.cachedProgram (vars (exec (Shared.transform emit code id) s))
    = Shared.cachedProgram (vars s).
Proof.
  destruct s as [[ct cp tf dev] n ev]. unfold shared_outcome. shared_run.
  destruct (isTsx id); simpl; [| done].
  destruct ct as [[] |], dev; done.
Qed.

Lemma shared_begin_spec
    (emit : TransformerHandle -> option (list string) -> string -> string -> string)
    (code id : string) (s : session Shared.plugin) :
  Shared.cachedProgram (vars (exec (Shared.transform_begin emit code id) s))
    = Shared.cachedProgram (vars s) /\
  (eval (Shared.transform_begin emit code id) s
     = Settled (shared_outcome emit (Shared.cachedProgram (vars s)) (code, id)) \/
   (isTsx id = true /\
    eval (Shared.transform_begin emit code id) s = AwaitingImport (code, id))).
Proof.
  destruct s as [[ct cp tf dev] n ev]. unfold shared_outcome. shared_run.
  destruct (isTsx id); simpl; [| auto].
  destruct ct as [[] |], dev; auto.
Qed.

Lemma shared_resume_spec
    (emit : TransformerHandle -> option (list string) -> string -> string -> string)
    (code id : string) (s : session Shared.plugin) :
  isTsx id = true ->
  eval (Shared.transform_resume emit (code, id)) s
    = shared_outcome emit (Shared.cachedProgram (vars s)) (code, id) /\
  Shared.cachedProgram (vars (exec (Shared.transform_resume emit (code, id)) s))
    = Shared.cachedProgram (vars s).
Proof.
  intros Hid. destruct s as [[ct cp tf dev] n ev]. unfold shared_outcome. shared_run.
  rewrite Hid. destruct dev; done.
Qed.

Section Unfoldings.

Context {V K : Type}.
Variable begin : string -> string -> M V (progress K).
Variable resume : K -> M V outcome.
Variable transform : string -> string -> M V outcome.

Lemma begin_all_cons (code id : string) (calls : list (string * string)) (s : session V) :
  begin_all begin ((code, id) :: calls) s =
    let (p, s1) := begin code id s in
    let (ps, s2) := begin_all begin calls s1 in
    (p :: ps, s2).
Proof. reflexivity. Qed.

Lemma finish_all_settled (o : outcome) (ps : list (progress K)) (s : session V) :
  finish_all resume (Settled o :: ps) s =
    let (os, s2) := finish_all resume ps s in
    (o :: os, s2).
Proof. reflexivity. Qed.

Lemma finish_all_parked (k : K) (ps : list (progress K)) (s : session V) :
  finish_all resume (AwaitingImport k :: ps) s =
    let (o, s1) := resume k s in
    let (os, s2) := finish_all resume ps s1 in
    (o :: os, s2).
Proof. reflexivity. Qed.

Lemma transform_each_cons (code id : string) (calls : list (string * string))
    (s : session V) :
  transform_each transform ((code, id) :: calls) s =
    let (o, s1) := transform code id s in
    let (os, s2) := transform_each transform calls s1 in
    (o :: os, s2).
Proof. reflexivity. Qed.

End Unfoldings.

Lemma shared_sequence_outcomes
    (emit : TransformerHandle -> option (list string) -> string -> string -> string)
    (calls : list (string * string)) (s : session Shared.plugin) :
  eval (transform_each (Shared.transform emit) calls) s
  = List.map (shared_outcome emit (Shared.cachedProgram (vars s))) calls.
Proof.
  revert s. induction calls as [| [code id] calls IH]; intros s; [reflexivity |].
  destruct (shared_transform_spec emit code id s) as [Ho Hp].
  specialize (IH (exec (Shared.transform emit code id) s)). rewrite Hp in IH.
  unfold eval, exec in *. rewrite transform_each_cons.
  destruct (Shared.transform emit code id s) as [o s1]. cbn [fst snd] in *.
  destruct (transform_each _ calls s1) as [os s2].
  cbn [fst snd List.map] in *. congruence.
Qed.

Lemma shared_finish_outcomes
    (emit : TransformerHandle -> option (list string) -> string -> string -> string)
    (cp : option ProgramHandle) (calls : list (string * string))
    (ps : list (progress (string * string))) (s : session Shared.plugin) :
  Forall2 (fun c p => p = Settled (shared_outcome emit cp c) \/
                      (isTsx (snd c) = true /\ p = AwaitingImport c)) calls ps ->
  Shared.cachedProgram (vars s) = cp ->
  eval (finish_all (Shared.transform_resume emit) ps) s
  = List.map (shared_outcome emit cp) calls.
Proof.
  intros Hall. revert s.
  induction Hall as [| [code id] p calls ps Hp _ IH]; intros s Hs; [reflexivity |].
  destruct Hp as [-> | [Hid ->]]; unfold eval in *.
  - rewrite finish_all_settled. specialize (IH s Hs).
    destruct (finish_all _ ps s) as [os s2]. cbn [fst snd List.map] in *. congruence.
  - cbn [snd] in Hid. destruct (shared_resume_spec emit code id s Hid) as [Ho Hcp].
    unfold eval, exec in Ho, Hcp. rewrite finish_all_parked.
    destruct (Shared.transform_resume emit (code, id) s) as [o s1].
    cbn [fst snd] in Ho, Hcp.
    assert (Hs1 : Shared.cachedProgram (vars s1) = cp) by congruence.
    specialize (IH s1 Hs1).
    destruct (finish_all _ ps s1) as [os s2]. cbn [fst snd List.map] in *. congruence.
Qed.

Lemma shared_begin_all_outcomes
    (emit : TransformerHandle -> option (list string) -> string -> string -> string)
    (calls : list (string * string)) (s : session Shared.plugin) :
  let r := begin_all (Shared.transform_begin emit) calls s in
  Forall2 (fun c p => p = Settled (shared_outcome emit (Shared.cachedProgram (vars s)) c) \/
                      (isTsx (snd c) = true /\ p = AwaitingImport c)) calls (fst r) /\
  Shared.cachedProgram (vars (snd r)) = Shared.cachedProgram (vars s).
Proof.
  revert s. induction calls as [| [code id] calls IH]; intros s.
  - split; [constructor | reflexivity].
  - destruct (shared_begin_spec emit code id s) as [Hcp Hp].
    unfold eval, exec in Hcp, Hp. cbv zeta. rewrite begin_all_cons.
    destruct (Shared.transform_begin emit code id s) as [p s1].
    cbn [fst snd] in Hcp, Hp.
    specialize (IH s1). cbv zeta in IH. rewrite Hcp in IH.
    destruct (begin_all _ calls s1) as [ps s2]. cbn [fst snd] in *.
    destruct IH as [IHall IHcp]. split; [| exact IHcp].
    constructor; [exact Hp | exact IHall].
Qed.

(** X14.  In [Shared], overlap changes no result: calls that begin
    together and are resumed in turn resolve to exactly what the same calls
    resolve to when each runs to its end before the next begins, from any
    state and for any mix of files. *)
Theorem shared_race_same_outcomes
    (emit : TransformerHandle -> option (list string) -> string -> string -> string)
    (calls : list (string * string)) (s : session Shared.plugin) :
  eval (race (Shared.transform_begin emit) (Shared.transform_resume emit) calls) s
  = eval (transform_each (Shared.transform emit) calls) s.
Proof.
  rewrite shared_sequence_outcomes.
  destruct (shared_begin_all_outcomes emit calls s) as [Hall Hcp].
  unfold eval, race, bind.
  destruct (begin_all (Shared.transform_begin emit) calls s) as [ps s1]. simpl in *.
  apply (shared_finish_outcomes emit _ calls ps s1 Hall Hcp).
Qed.

(** ** Sessions in one mode *)

Lemma shared_step_silent
    (emit : TransformerHandle -> option (list string) -> string -> string -> string)
    (c : call) (s : session Shared.plugin) :
  is_config_serve c = false ->
  Shared.isDevMode (vars s) = false ->
  Shared.isDevMode (vars (SharedHost.step emit c s)) = false /\
  log_lines (events (SharedHost.step emit c s)) = log_lines (events s).
Proof.
  destruct s as [[ct cp tf dev] n ev]. simpl. intros Hc ->.
  destruct c as [[|] | | code id | file modules];
    cbv [SharedHost.step]; simpl in Hc; try discriminate; shared_run.
  - done.
  - destruct cp; done.
  - destruct (isTsx id); simpl; [| done]. destruct ct; done.
  - destruct (isTsx file); simpl; [| done]. destruct (List.find _ modules); done.
Qed.

Lemma cached_step_silent
    (emit : TransformerHandle -> option (list string) -> string -> string -> string)
    (c : call) (s : session Cached.plugin) :
  is_config_serve c = false ->
  Cached.isDevMode (vars s) = false ->
  Cached.isDevMode (vars (CachedHost.step emit c s)) = false /\
  log_lines (events (CachedHost.step emit c s)) = log_lines (events s).
Proof.
  destruct s as [[ec ct cp dev] n ev]. simpl. intros Hc ->.
  destruct c as [[|] | | code id | file modules];
    cbv [CachedHost.step]; simpl in Hc; try discriminate; cached_run.
  - done.
  - done.
  - destruct (isTsx id); simpl; [| done]. destruct ct, cp; done.
  - destruct (isTsx file); simpl; [| done]. destruct (List.find _ modules); done.
Qed.

(** X15.  A build prints nothing: after [configResolved] with the [build]
    command, and until a [configResolved] for the development server, no
    hook of [Shared] or [Cached] writes a line to the console, however many
    files are transformed. *)
Theorem production_is_silent
    (emit : TransformerHandle -> option (list string) -> string -> string -> string)
    (cs : list call) :
  Forall (fun c => is_config_serve c = false) cs ->
  (forall s0 : session Shared.plugin,
      log_lines (events (SharedHost.run_from emit (exec (Shared.configResolved build) s0) cs))
      = log_lines (events s0)) /\
  (forall s0 : session Cached.plugin,
      log_lines (events (CachedHost.run_from emit (exec (Cached.configResolved build) s0) cs))
      = log_lines (events s0)).
Proof.
  intros Hcs. split; intros s0.
  - assert (Hgen : forall s, Shared.isDevMode (vars s) = false ->
      log_lines (events (SharedHost.run_from emit s cs)) = log_lines (events s)).
    { unfold SharedHost.run_from.
      induction Hcs as [| c cs Hc _ IH]; intros s Hs; simpl; [reflexivity |].
      destruct (shared_step_silent emit c s Hc Hs) as [Hs' Hl].
      now rewrite (IH _ Hs'). }
    rewrite Hgen; destruct s0 as [[ct cp tf dev] n ev]; reflexivity.
  - assert (Hgen : forall s, Cached.isDevMode (vars s) = false ->
      log_lines (events (CachedHost.run_from emit s cs)) = log_lines (events s)).
    { unfold CachedHost.run_from.
      induction Hcs as [| c cs Hc _ IH]; intros s Hs; simpl; [reflexivity |].
      destruct (cached_step_silent emit c s Hc Hs) as [Hs' Hl].
      now rewrite (IH _ Hs'). }
    rewrite Hgen; destruct s0 as [[ec ct cp dev] n ev]; reflexivity.
Qed.

Lemma production_is_silent_witness :
  log_lines (events (SharedHost.run_from emit_typed
                       (exec (Shared.configResolved build) Shared.start)
                       [BuildStart; Transform "<a/>" "/src/a.tsx";
                        Transform "<b/>" "/src/b.tsx"])) = 0.
Proof.
  destruct (production_is_silent emit_typed
              [BuildStart; Transform "<a/>" "/src/a.tsx"; Transform "<b/>" "/src/b.tsx"])
    as [Hs _].
  - repeat constructor.
  - apply (Hs Shared.start).
Defined.

Lemma cached_step_uncached
    (emit : TransformerHandle -> option (list string) -> string -> string -> string)
    (c : call) (s : session Cached.plugin) :
  is_config_build c = false ->
  vars s = Cached.mkPlugin false None None true ->
  vars (CachedHost.step emit c s) = Cached.mkPlugin false None None true.
Proof.
  destruct s as [v n ev]. simpl. intros Hc ->.
  destruct c as [[|] | | code id | file modules];
    cbv [CachedHost.step]; simpl in Hc; try discriminate; cached_run.
  - done.
  - done.
  - destruct (isTsx id); done.
  - destruct (isTsx file); simpl; [| done]. destruct (List.find _ modules); done.
Qed.

(** X16.  A development session of a plugin created without
    [enableCache] never caches anything: after [configResolved] for the
    server, and until a [configResolved] for a build, both caches are empty
    after every hook call, so every transform in it starts cold. *)
Theorem dev_default_never_caches
    (emit : TransformerHandle -> option (list string) -> string -> string -> string)
    (cs : list call) (s0 : session Cached.plugin) :
  Cached.enableCache (vars s0) = false ->
  Forall (fun c => is_config_build c = false) cs ->
  let s := CachedHost.run_from emit (exec (Cached.configResolved serve) s0) cs in
  Cached.cachedTransformer (vars s) = None /\
  Cached.cachedProgram (vars s) = None /\
  Cached.shouldCache (vars s) = false.
Proof.
  intros Hec Hcs s.
  assert (Hv : vars s = Cached.mkPlugin false None None true).
  { subst s. unfold CachedHost.run_from.
    assert (H0 : vars (exec (Cached.configResolved serve) s0)
                 = Cached.mkPlugin false None None true).
    { destruct s0 as [[ec ct cp dev] n ev]. simpl in Hec. subst ec. reflexivity. }
    revert H0. generalize (exec (Cached.configResolved serve) s0).
    induction Hcs as [| c cs Hc _ IH]; intros s Hs; simpl; [exact Hs |].
    apply IH. now apply cached_step_uncached. }
  rewrite Hv. repeat split.
Qed.

Lemma dev_default_never_caches_witness :
  Cached.cachedProgram
    (vars (CachedHost.run_from emit_typed cached_nocache_session
             [Transform "<a/>" "/src/a.tsx"; HandleHotUpdate "/src/a.tsx" [];
              Transform "<a2/>" "/src/a.tsx"])) = None.
Proof.
  destruct (dev_default_never_caches emit_typed
              [Transform "<a/>" "/src/a.tsx"; HandleHotUpdate "/src/a.tsx" [];
               Transform "<a2/>" "/src/a.tsx"]
              (Cached.start (Cached.mkOptions None)) eq_refl)
    as (_ & H & _).
  - repeat constructor.
  - exact H.
Defined.

(** ** A change that arrives while a call is parked *)

Lemma cached_parked_inversion
    (emit : TransformerHandle -> option (list string) -> string -> string -> string)
    (code id : string) (s : session Cached.plugin) (k : Cached.parked) :
  eval (Cached.transform_begin emit code id) s = AwaitingImport k ->
  k = Cached.mkParked (Cached.shouldCache (vars s)) code id /\
  exec (Cached.transform_begin emit code id) s
    = mkSession (vars s) (next_stamp s) (EvImport :: events s).
Proof.
  destruct s as [[ec ct cp dev] n ev]. cached_run.
  destruct (isTsx id); simpl; [| discriminate].
  destruct dev, ec, ct, cp; simpl; try discriminate; intros [= <-]; split; reflexivity.
Qed.

Lemma shared_parked_inversion
    (emit : TransformerHandle -> option (list string) -> string -> string -> string)
    (code id : string) (s : session Shared.plugin) (k : string * string) :
  eval (Shared.transform_begin emit code id) s = AwaitingImport k ->
  k = (code, id) /\
  exec (Shared.transform_begin emit code id) s
    = mkSession (vars s) (next_stamp s) (EvImport :: events s).
Proof.
  destruct s as [[ct cp tf dev] n ev]. shared_run.
  destruct (isTsx id); simpl; [| discriminate].
  destruct ct, dev; simpl; try discriminate; intros [= <-]; split; reflexivity.
Qed.

(** X17.  When a change notification for a file arrives while a transform
    of that file is parked at its [import], the resumed call already sees
    the invalidation: in [Cached] it is handed a program created after the
    notification, from this file; in [Shared] a development-mode call
    reports [fresh]. *)
Theorem change_while_parked
    (emit : TransformerHandle -> option (list string) -> string -> string -> string)
    (code id : string) (modules : list ModuleNode) :
  isTsx id = true ->
  (forall (s : session Cached.plugin) (k : Cached.parked),
      eval (Cached.transform_begin emit code id) s = AwaitingImport k ->
      let s1 := exec (Cached.handleHotUpdate id modules)
                     (exec (Cached.transform_begin emit code id) s) in
      program_passed (effects (Cached.transform_resume emit k) s1)
      = Some (Some (mkProgram (next_stamp s) [id]))) /\
  (forall (s : session Shared.plugin) (k : string * string),
      eval (Shared.transform_begin emit code id) s = AwaitingImport k ->
      let s1 := exec (Shared.handleHotUpdate id modules)
                     (exec (Shared.transform_begin emit code id) s) in
      reported (effects (Shared.transform_resume emit k) s1)
      = if Shared.isDevMode (vars s) then Some fresh else None).
Proof.
  intros Hid. split.
  - intros s k Hk s1.
    destruct (cached_parked_inversion emit code id s k Hk) as [-> Hs].
    subst s1. rewrite Hs. clear Hk Hs.
    destruct s as [[ec ct cp dev] n ev]. cached_run. rewrite Hid. simpl.
    destruct (List.find _ modules); destruct dev, ec; reflexivity.
  - intros s k Hk s1.
    destruct (shared_parked_inversion emit code id s k Hk) as [-> Hs].
    subst s1. rewrite Hs. clear Hk Hs.
    destruct s as [[ct cp tf dev] n ev]. shared_run. rewrite Hid. simpl.
    assert (Hout : id ∉ tf ∖ {[id]}).
    { apply not_elem_of_difference. right. now apply elem_of_singleton. }
    destruct (List.find _ modules), dev; simpl;
      rewrite ?bool_decide_eq_false_2 by exact Hout; reflexivity.
Qed.

Lemma change_while_parked_witness :
  program_passed
    (effects (Cached.transform_resume emit_typed (Cached.mkParked false "<a/>" "/src/a.tsx"))
             (exec (Cached.handleHotUpdate "/src/a.tsx" [])
                   (exec (Cached.transform_begin emit_typed "<a/>" "/src/a.tsx")
                         cached_nocache_session)))
  = Some (Some (mkProgram 0 ["/src/a.tsx"])).
Proof.
  destruct (change_while_parked emit_typed "<a/>" "/src/a.tsx" [] eq_refl) as [Hc _].
  apply (Hc cached_nocache_session (Cached.mkParked false "<a/>" "/src/a.tsx")).
  reflexivity.
Defined.

(** ** Overlapping calls in [Cached] *)

Lemma cached_transform_meets_spec
    (emit : TransformerHandle -> option (list string) -> string -> string -> string)
    (code id : string) (s : session Cached.plugin) :
  cached_call_spec emit code id s (Cached.transform emit code id s).
Proof.
  destruct s as [[ec ct cp dev] n ev]. unfold cached_call_spec. cached_run.
  destruct (isTsx id); simpl; [| done].
  destruct dev, ec, ct as [[] |], cp; done.
Qed.

Lemma cached_resume_meets_spec
    (emit : TransformerHandle -> option (list string) -> string -> string -> string)
    (code id : string) (s : session Cached.plugin) :
  isTsx id = true ->
  cached_call_spec emit code id s
    (Cached.transform_resume emit (Cached.mkParked (Cached.shouldCache (vars s)) code id) s).
Proof.
  intros Hid. destruct s as [[ec ct cp dev] n ev]. unfold cached_call_spec. cached_run.
  rewrite Hid. destruct dev, ec, cp; done.
Qed.

(** Calls that each meet [cached_call_spec] resolve to [cached_outcomes]. *)
Lemma cached_sequence_outcomes
    (emit : TransformerHandle -> option (list string) -> string -> string -> string)
    (calls : list (string * string)) (s : session Cached.plugin) :
  eval (transform_each (Cached.transform emit) calls) s
  = cached_outcomes emit (Cached.shouldCache (vars s))
      (ph_roots <$> Cached.cachedProgram (vars s)) calls.
Proof.
  revert s. induction calls as [| [code id] calls IH]; intros s; [reflexivity |].
  pose proof (cached_transform_meets_spec emit code id s) as Hspec.
  unfold eval in *. rewrite transform_each_cons.
  destruct (Cached.transform emit code id s) as [o s1].
  unfold cached_call_spec in Hspec. cbn [fst snd] in Hspec.
  destruct Hspec as [Hsc Hrest].
  specialize (IH s1). destruct (transform_each _ calls s1) as [os s2].
  cbn [fst snd cached_outcomes] in *.
  destruct (isTsx id).
  - destruct Hrest as [-> Hcp]. rewrite Hsc, Hcp in IH. now rewrite IH.
  - destruct Hrest as [-> ->]. now rewrite IH.
Qed.

Lemma cached_cold_begin
    (emit : TransformerHandle -> option (list string) -> string -> string -> string)
    (code id : string) (s : session Cached.plugin) :
  (if Cached.shouldCache (vars s) then Cached.cachedTransformer (vars s) else None) = None ->
  fst (Cached.transform_begin emit code id s)
    = cold_progress (Cached.shouldCache (vars s)) (code, id) /\
  vars (snd (Cached.transform_begin emit code id s)) = vars s.
Proof.
  destruct s as [[ec ct cp dev] n ev]. unfold cold_progress. simpl. intros Hcold.
  cached_run. destruct (isTsx id); simpl; [| done].
  destruct dev, ec, ct; simpl in *; try discriminate; done.
Qed.

Lemma cached_cold_begin_all
    (emit : TransformerHandle -> option (list string) -> string -> string -> string)
    (calls : list (string * string)) (s : session Cached.plugin) :
  (if Cached.shouldCache (vars s) then Cached.cachedTransformer (vars s) else None) = None ->
  fst (begin_all (Cached.transform_begin emit) calls s)
    = List.map (cold_progress (Cached.shouldCache (vars s))) calls /\
  vars (snd (begin_all (Cached.transform_begin emit) calls s)) = vars s.
Proof.
  revert s. induction calls as [| [code id] calls IH]; intros s Hcold.
  - split; reflexivity.
  - destruct (cached_cold_begin emit code id s Hcold) as [Hp Hv].
    rewrite begin_all_cons.
    destruct (Cached.transform_begin emit code id s) as [p s1]. cbn [fst snd] in Hp, Hv.
    assert (Hcold1 : (if Cached.shouldCache (vars s1)
                      then Cached.cachedTransformer (vars s1) else None) = None)
      by now rewrite Hv.
    destruct (IH s1 Hcold1) as [IHp IHv].
    destruct (begin_all _ calls s1) as [ps s2]. cbn [fst snd List.map] in *.
    rewrite Hv in IHp, IHv. split; congruence.
Qed.

Lemma cached_finish_cold
    (emit : TransformerHandle -> option (list string) -> string -> string -> string)
    (calls : list (string * string)) (s : session Cached.plugin) :
  eval (finish_all (Cached.transform_resume emit)
          (List.map (cold_progress (Cached.shouldCache (vars s))) calls)) s
  = cached_outcomes emit (Cached.shouldCache (vars s))
      (ph_roots <$> Cached.cachedProgram (vars s)) calls.
Proof.
  revert s. induction calls as [| [code id] calls IH]; intros s; [reflexivity |].
  unfold eval in *. cbn [List.map cached_outcomes]. unfold cold_progress at 1. cbn [fst snd].
  destruct (isTsx id) eqn:Hid.
  - pose proof (cached_resume_meets_spec emit code id s Hid) as Hspec.
    rewrite finish_all_parked.
    destruct (Cached.transform_resume emit _ s) as [o s1].
    unfold cached_call_spec in Hspec. rewrite Hid in Hspec. cbn [fst snd] in Hspec.
    destruct Hspec as (Hsc & -> & Hcp).
    specialize (IH s1). rewrite Hsc, Hcp in IH.
    destruct (finish_all _ _ s1) as [os s2]. cbn [fst snd] in *. now rewrite IH.
  - rewrite finish_all_settled. specialize (IH s).
    destruct (finish_all _ _ s) as [os s2]. cbn [fst snd] in *. now rewrite IH.
Qed.

Lemma cached_warm_begin
    (emit : TransformerHandle -> option (list string) -> string -> string -> string)
    (code id : string) (s : session Cached.plugin) (t : TransformerHandle) :
  Cached.shouldCache (vars s) = true ->
  Cached.cachedTransformer (vars s) = Some t ->
  Cached.transform_begin emit code id s
    = (Settled (fst (Cached.transform emit code id s)), snd (Cached.transform emit code id s)) /\
  Cached.shouldCache (vars (snd (Cached.transform emit code id s))) = true /\
  Cached.cachedTransformer (vars (snd (Cached.transform emit code id s))) = Some t.
Proof.
  destruct s as [[ec ct cp dev] n ev]. simpl. intros Hsc ->.
  cached_run. destruct (isTsx id); simpl; [| done].
  destruct dev, ec, cp; simpl in *; try discriminate; done.
Qed.

Lemma cached_warm_begin_all
    (emit : TransformerHandle -> option (list string) -> string -> string -> string)
    (calls : list (string * string)) (s : session Cached.plugin) (t : TransformerHandle) :
  Cached.shouldCache (vars s) = true ->
  Cached.cachedTransformer (vars s) = Some t ->
  begin_all (Cached.transform_begin emit) calls s
    = (List.map Settled (fst (transform_each (Cached.transform emit) calls s)),
       snd (transform_each (Cached.transform emit) calls s)).
Proof.
  revert s. induction calls as [| [code id] calls IH]; intros s Hsc Hct; [reflexivity |].
  destruct (cached_warm_begin emit code id s t Hsc Hct) as (Hb & Hsc1 & Hct1).
  rewrite begin_all_cons, transform_each_cons, Hb.
  destruct (Cached.transform emit code id s) as [o s1]. cbn [fst snd] in *.
  rewrite (IH s1 Hsc1 Hct1).
  destruct (transform_each _ calls s1) as [os s2]. reflexivity.
Qed.

Lemma finish_all_of_settled {V K : Type} (resume : K -> M V outcome)
    (os : list outcome) (s : session V) :
  finish_all resume (List.map Settled os) s = (os, s).
Proof.
  induction os as [| o os IH]; [reflexivity |].
  cbn [List.map]. rewrite finish_all_settled, IH. reflexivity.
Qed.

(** X18.  In [Cached] too, overlap changes no result: calls that begin
    together and are resumed in turn resolve to exactly what the same calls
    resolve to one after the other, with caching on or off and from warm
    or cold caches.  With caching on and cold caches, the first call to be
    resumed builds the program and the calls resumed after it reuse it, as
    in sequence. *)
Theorem cached_race_same_outcomes
    (emit : TransformerHandle -> option (list string) -> string -> string -> string)
    (calls : list (string * string)) (s : session Cached.plugin) :
  eval (race (Cached.transform_begin emit) (Cached.transform_resume emit) calls) s
  = eval (transform_each (Cached.transform emit) calls) s /\
  eval (transform_each (Cached.transform emit) calls) s
  = cached_outcomes emit (Cached.shouldCache (vars s))
      (ph_roots <$> Cached.cachedProgram (vars s)) calls.
Proof.
  split; [| apply cached_sequence_outcomes].
  destruct (if Cached.shouldCache (vars s) then Cached.cachedTransformer (vars s) else None)
    as [t |] eqn:Hwarm.
  - assert (Hsc : Cached.shouldCache (vars s) = true)
      by (destruct (Cached.shouldCache (vars s)); [reflexivity | discriminate]).
    rewrite Hsc in Hwarm.
    unfold eval, race, bind.
    rewrite (cached_warm_begin_all emit calls s t Hsc Hwarm).
    now rewrite finish_all_of_settled.
  - rewrite cached_sequence_outcomes.
    destruct (cached_cold_begin_all emit calls s Hwarm) as [Hps Hv].
    unfold race, bind. unfold eval at 1.
    destruct (begin_all (Cached.transform_begin emit) calls s) as [ps s1].
    cbn [fst snd] in Hps, Hv. subst ps. rewrite <- Hv.
    apply cached_finish_cold.
Qed.

(** ** Instances on the sample sessions *)

Lemma endsWith_iff_suffix_witness : exists p, "/src/App.tsx" = p ++ ".tsx".
Proof.
  destruct (endsWith_iff_suffix "/src/App.tsx" ".tsx") as [_ [H _]].
  apply H. reflexivity.
Defined.

Lemma shared_program_created_once_witness :
  Shared.cachedProgram (vars shared_dev_session) = Some (mkProgram 0 []) /\
  ph_roots (mkProgram 0 []) = [].
Proof.
  destruct (shared_program_created_once emit_typed shared_dev_calls) as (_ & H & _).
  apply (H (mkProgram 0 [])).
  vm_compute. repeat first [left; reflexivity | right].
Defined.

Lemma handleHotUpdate_answer_witness :
  effects (Shared.handleHotUpdate "/src/a.tsx"
             [mkModuleNode "/src/b.tsx" (Some "/src/b.tsx");
              mkModuleNode "/src/a.tsx" (Some "/src/a.tsx")])
          shared_dev_session
  <> [].
Proof.
  destruct (handleHotUpdate_answer "/src/a.tsx"
              [mkModuleNode "/src/b.tsx" (Some "/src/b.tsx");
               mkModuleNode "/src/a.tsx" (Some "/src/a.tsx")]) as [Hs _].
  destruct (Hs shared_dev_session) as (_ & _ & _ & H).
  apply H; [reflexivity |].
  exists (mkModuleNode "/src/a.tsx" (Some "/src/a.tsx")). split; [| reflexivity].
  right. left. reflexivity.
Defined.
